(** * dco_win.c: the Windows data-channel-offload adapter of OpenVPN

    A shallow embedding of [src/openvpn/dco_win.c].  The C functions talk to
    the ovpn-dco-win driver through [DeviceIoControl] and to the rest of
    OpenVPN through [msg], [get_signal], [management_sleep],
    [tun_open_device] and [close_tun_handle].  Those calls are modelled as
    operations of a small state monad over a [world]: the world carries the
    integer behind [signal_received], the thread's last-error code, call
    counters and the chronological trace of every external call.  What the
    driver and the signal machinery answer is given by an environment
    [env] of oracles indexed by the call counters.

    Machine integers are [Z] with their wrap-around written out; C objects
    reached through pointers are byte lists together with the memory that
    follows them; the descriptors handed to the driver are byte blocks
    written field by field at the offsets of an [abi] record.  The arena
    calls ([gc_new], [gc_free]) and the [OVERLAPPED] bookkeeping have no
    effect that is observed here and are left out. *)

From Stdlib Require Import String ZArith List Bool Lia.
Import ListNotations.

Local Open Scope string_scope.
Local Open Scope list_scope.
Local Open Scope Z_scope.

(** ** Machine integers *)

Module Int.

(** [DWORD]: 32-bit unsigned. *)
Definition dword (z : Z) : Z := z mod 2 ^ 32.

(** [int]: 32-bit two's complement, the wrap the Windows compilers give. *)
Definition int32 (z : Z) : Z := (z + 2 ^ 31) mod 2 ^ 32 - 2 ^ 31.

(** Little-endian encoding of the low [n] bytes of [v]. *)
Fixpoint le_bytes (n : nat) (v : Z) : list Z :=
  match n with
  | O => []
  | S n' => v mod 256 :: le_bytes n' (v / 256)
  end.

(** Unsigned little-endian decoding. *)
Fixpoint le_decode (bs : list Z) : Z :=
  match bs with
  | [] => 0
  | b :: bs' => b + 256 * le_decode bs'
  end.

End Int.

(** ** C memory *)

Module Mem.

(** An object reached through a pointer: the bytes of the object itself
    and whatever memory happens to follow it.  A read that runs past the
    end of the object is what C leaves undefined; here it returns the
    bytes that lie behind the object, so such a read is visible. *)
Record cmem := { mem_bytes : list Z; mem_beyond : nat -> Z }.

Definition load (p : cmem) (i : nat) : Z :=
  match nth_error (mem_bytes p) i with
  | Some b => b
  | None => mem_beyond p (i - length (mem_bytes p))
  end.

(** The [n] bytes starting at the pointer: the source of a [CopyMemory]
    or of a structure assignment through a cast pointer. *)
Definition read_bytes (p : cmem) (n : nat) : list Z := map (load p) (seq 0 n).

(** [ZeroMemory] on a block of [n] bytes, also [= { 0 }]. *)
Definition ZeroMemory (n : nat) : list Z := repeat 0 n.

(** Writing [data] into the block at byte offset [off].  The block models
    one local structure; bytes that would land behind it are dropped. *)
Fixpoint store (off : nat) (data blk : list Z) : list Z :=
  match blk with
  | [] => []
  | b :: blk' =>
      match off with
      | S off' => b :: store off' data blk'
      | O => match data with
             | [] => blk
             | d :: data' => d :: store O data' blk'
             end
      end
  end.

(** The [n] bytes of the block at offset [off]. *)
Definition slice (off n : nat) (blk : list Z) : list Z :=
  firstn n (skipn off blk).

End Mem.

Import Int Mem.

(** ** Constants of the platform headers

    None of these headers is part of the sources; the values are the ones
    of the Windows SDK (winsock2.h, ws2def.h, winerror.h) and of OpenVPN's
    syshead.h for [SIGUSR1].  No result below depends on a value except on
    their being pairwise distinct where the code compares them and on
    [SIGUSR1] being nonzero. *)

Definition AF_INET : Z := 2.
Definition AF_INET6 : Z := 23.
Definition IPPROTO_TCP : Z := 6.
Definition SOCK_STREAM : Z := 1.
Definition WAIT_TIMEOUT : Z := 258.
Definition ERROR_IO_INCOMPLETE : Z := 996.
Definition ERROR_IO_PENDING : Z := 997.
Definition SIGUSR1 : Z := 10.

(** [SOCKADDR_IN]: family, port, address, eight bytes of padding. *)
Definition sizeof_SOCKADDR_IN : nat := 16.
Definition off_sin_family : nat := 0.
Definition off_sin_port : nat := 2.
Definition off_sin_addr : nat := 4.

(** [SOCKADDR_IN6]: family, port, flow info, address, scope id. *)
Definition sizeof_SOCKADDR_IN6 : nat := 28.
Definition off_sin6_family : nat := 0.
Definition off_sin6_port : nat := 2.
Definition off_sin6_addr : nat := 8.

Definition in4addr_any : list Z := repeat 0 4%nat.
Definition in6addr_any : list Z := repeat 0 16%nat.

(** [sa_family] of the [struct sockaddr] behind a pointer. *)
Definition sa_family (sa : cmem) : Z := le_decode (read_bytes sa 2).

(** ** The driver's ABI

    The structures [OVPN_NEW_PEER], [OVPN_SET_PEER] and [OVPN_CRYPTO_DATA]
    are declared in the driver's public header, which is not part of the
    sources.  Their layout is therefore a parameter: sizes and field
    offsets in bytes, and the numeric values of [OVPN_PROTO].  Enumerations
    and [int] fields take four bytes, [KeyId] and [KeyLen] one.  Whether
    an enumeration without negative enumerators is a signed type is the
    compiler's choice and a parameter as well: Microsoft's compiler makes
    it [int], gcc (MinGW) makes it [unsigned int]. *)

Record abi := {
  sizeof_OVPN_NEW_PEER : nat;
  off_Local : nat;
  off_Remote : nat;
  off_Proto : nat;
  OVPN_PROTO_UDP : Z;
  OVPN_PROTO_TCP : Z;
  sizeof_OVPN_SET_PEER : nat;
  off_KeepaliveInterval : nat;
  off_KeepaliveTimeout : nat;
  sizeof_OVPN_CRYPTO_DATA : nat;
  off_Encrypt : nat;
  off_Decrypt : nat;
  off_KeySlot : nat;
  off_CipherAlg : nat;
  off_KeyId : nat;
  off_PeerId : nat;
  off_Key : nat;
  sizeof_Key : nat;
  off_KeyLen : nat;
  off_NonceTail : nat;
  enum_signed : bool
}.

(** The layout of the driver header as the 32- and 64-bit Windows
    compilers lay it out, with the signed enumerations of Microsoft's
    compiler. *)
Definition win_abi : abi := {|
  sizeof_OVPN_NEW_PEER := 60;
  off_Local := 0;
  off_Remote := 28;
  off_Proto := 56;
  OVPN_PROTO_UDP := 0;
  OVPN_PROTO_TCP := 1;
  sizeof_OVPN_SET_PEER := 8;
  off_KeepaliveInterval := 0;
  off_KeepaliveTimeout := 4;
  sizeof_OVPN_CRYPTO_DATA := 100;
  off_Encrypt := 0;
  off_Decrypt := 41;
  off_KeySlot := 84;
  off_CipherAlg := 88;
  off_KeyId := 92;
  off_PeerId := 96;
  off_Key := 0;
  sizeof_Key := 32;
  off_KeyLen := 32;
  off_NonceTail := 33;
  enum_signed := true
|}.

(** The same layout with the unsigned enumerations of gcc (MinGW). *)
Definition mingw_abi : abi := {|
  sizeof_OVPN_NEW_PEER := 60;
  off_Local := 0;
  off_Remote := 28;
  off_Proto := 56;
  OVPN_PROTO_UDP := 0;
  OVPN_PROTO_TCP := 1;
  sizeof_OVPN_SET_PEER := 8;
  off_KeepaliveInterval := 0;
  off_KeepaliveTimeout := 4;
  sizeof_OVPN_CRYPTO_DATA := 100;
  off_Encrypt := 0;
  off_Decrypt := 41;
  off_KeySlot := 84;
  off_CipherAlg := 88;
  off_KeyId := 92;
  off_PeerId := 96;
  off_Key := 0;
  sizeof_Key := 32;
  off_KeyLen := 32;
  off_NonceTail := 33;
  enum_signed := false
|}.

(** ** The world outside dco_win.c *)

Inductive ioctl :=
| OVPN_IOCTL_NEW_PEER
| OVPN_IOCTL_START_VPN
| OVPN_IOCTL_SET_PEER
| OVPN_IOCTL_NEW_KEY
| OVPN_IOCTL_SWAP_KEYS.

(** Modelled from the spec: error.h and errlevel.h are not part of the
    sources.  The levels are the ones dco_win.c passes to [msg]; the spec
    calls the conditions reported with [M_FATAL] and [M_ERR] fatal ("abort
    the current operation immediately") and the [M_WARN] one a non-fatal
    warning, and in OpenVPN [M_ERR] is [M_FATAL | M_ERRNO]: [msg] with the
    fatal bit does not return, it ends the process. *)
Inductive msglevel :=
| M_FATAL | M_ERR | M_NONFATAL | M_WARN | D_DCO | D_DCO_DEBUG.

Definition msg_exits (l : msglevel) : bool :=
  match l with
  | M_FATAL | M_ERR => true
  | _ => false
  end.

(** Arguments of a [msg] format string.  [AFamilyName af] stands for
    [addr_family_name(af)] and [AStrerror e] for [strerror_win32(e, ..)],
    both defined elsewhere in OpenVPN. *)
Inductive msgarg :=
| AStr (s : string)
| ANum (z : Z)
| AFamilyName (af : Z)
| AStrerror (err : Z).

Definition HANDLE := Z.

(** Every call that leaves dco_win.c, in the order it happens. *)
Inductive event :=
| EvMsg (level : msglevel) (fmt : string) (args : list msgarg)
| EvAssert
| EvOpenDevice (devname : string) (h : HANDLE)
| EvIoctl (hand : option HANDLE) (code : ioctl) (input : list Z)
          (overlapped : bool)
| EvWait (hand : option HANDLE) (ms : Z)
| EvGetSignal
| EvReadSignal
| EvWriteSignal (v : Z)
| EvSleep (n : Z)
| EvCloseHandle (h : HANDLE).

(** A Win32 call either succeeds or fails and leaves an error code for
    [GetLastError]. *)
Inductive winres := WinOk | WinErr (code : Z).

Definition win_ok (r : winres) : bool :=
  match r with WinOk => true | WinErr _ => false end.

(** The environment: what the collaborators answer.
    - [ioctl_reply n]: the result of the [n]-th [DeviceIoControl];
    - [wait_reply n]: the result of the [n]-th [dco_get_overlapped_result];
    - [signal_env n f]: the integer behind [signal_received] once
      [get_signal] has run after [n] waits, when it held [f] before;
    - [device_handle]: the handle [tun_open_device] obtains for a device;
    - [cipher_kt_key_size], [dco_get_cipher]: OpenVPN's cipher tables;
    - [stack_junk i]: byte [i] of a local variable without initialiser. *)
Record env := {
  ioctl_reply : nat -> winres;
  wait_reply : nat -> winres;
  signal_env : nat -> Z -> Z;
  device_handle : string -> HANDLE;
  cipher_kt_key_size : string -> nat;
  dco_get_cipher : string -> Z;
  stack_junk : nat -> Z
}.

Record world := {
  w_signal : Z;
  w_last_error : Z;
  w_ioctls : nat;
  w_waits : nat;
  w_trace : list event
}.

Definition log (e : event) (w : world) : world :=
  {| w_signal := w_signal w;
     w_last_error := w_last_error w;
     w_ioctls := w_ioctls w;
     w_waits := w_waits w;
     w_trace := w_trace w ++ [e] |}.

(** ** The monad

    A call returns a value, or ends the process ([msg] with a fatal level,
    a failed [ASSERT]), or is cut off because the fuel given to the wait
    loop ran out. *)

Inductive outcome (A : Type) : Type :=
| Returned (a : A) (w : world)
| Exited (w : world)
| OutOfFuel.

Arguments Returned {A} a w.
Arguments Exited {A} w.
Arguments OutOfFuel {A}.

Definition M (A : Type) : Type := world -> outcome A.

Definition ret {A : Type} (a : A) : M A := fun w => Returned a w.

Definition mbind {A B : Type} (m : M A) (k : A -> M B) : M B :=
  fun w =>
    match m w with
    | Returned a w' => k a w'
    | Exited w' => Exited w'
    | OutOfFuel => OutOfFuel
    end.

Declare Scope dco_scope.
Delimit Scope dco_scope with dco.
Notation "x <- m ;; k" := (mbind m (fun x => k))
  (at level 61, m at next level, right associativity) : dco_scope.
Notation "m ;; k" := (mbind m (fun _ => k))
  (at level 61, right associativity) : dco_scope.
Local Open Scope dco_scope.

Definition emit (e : event) : M unit := fun w => Returned tt (log e w).

(** ** The collaborators *)

Definition msg (level : msglevel) (fmt : string) (args : list msgarg)
  : M unit :=
  fun w =>
    let w' := log (EvMsg level fmt args) w in
    if msg_exits level then Exited w' else Returned tt w'.

Definition ASSERT (c : bool) : M unit :=
  if c then ret tt else fun w => Exited (log EvAssert w).

Definition DeviceIoControl (E : env) (hand : option HANDLE) (code : ioctl)
  (input : list Z) (overlapped : bool) : M bool :=
  fun w =>
    let r := ioctl_reply E (w_ioctls w) in
    Returned (win_ok r)
      {| w_signal := w_signal w;
         w_last_error :=
           match r with WinOk => w_last_error w | WinErr e => e end;
         w_ioctls := S (w_ioctls w);
         w_waits := w_waits w;
         w_trace := w_trace w ++ [EvIoctl hand code input overlapped] |}.

Definition dco_get_overlapped_result (E : env) (hand : option HANDLE)
  (ms : Z) : M bool :=
  fun w =>
    let r := wait_reply E (w_waits w) in
    Returned (win_ok r)
      {| w_signal := w_signal w;
         w_last_error :=
           match r with WinOk => w_last_error w | WinErr e => e end;
         w_ioctls := w_ioctls w;
         w_waits := S (w_waits w);
         w_trace := w_trace w ++ [EvWait hand ms] |}.

Definition GetLastError : M Z := fun w => Returned (w_last_error w) w.

Definition get_signal (E : env) : M unit :=
  fun w =>
    Returned tt
      {| w_signal := signal_env E (w_waits w) (w_signal w);
         w_last_error := w_last_error w;
         w_ioctls := w_ioctls w;
         w_waits := w_waits w;
         w_trace := w_trace w ++ [EvGetSignal] |}.

(** [*signal_received] read and written by dco_win.c itself. *)
Definition read_signal : M Z :=
  fun w => Returned (w_signal w) (log EvReadSignal w).

Definition write_signal (v : Z) : M unit :=
  fun w =>
    Returned tt
      {| w_signal := v;
         w_last_error := w_last_error w;
         w_ioctls := w_ioctls w;
         w_waits := w_waits w;
         w_trace := w_trace w ++ [EvWriteSignal v] |}.

Definition management_sleep (n : Z) : M unit := emit (EvSleep n).

Inductive windows_driver_type :=
| WINDOWS_DRIVER_UNSPECIFIED
| WINDOWS_DRIVER_WINDCO.

(** The part of [struct tuntap] that dco_win.c touches. *)
Record tuntap := {
  windows_driver : windows_driver_type;
  hand : option HANDLE
}.

Record dco_context_t := { dco_tt : tuntap }.

(** Modelled from the spec: [tun_open_device] (tun.c) is the Handle
    Service, "opens/creates the tunnel device and returns an opaque
    handle". *)
Definition tun_open_device (E : env) (tt : tuntap) (devname : string)
  : M tuntap :=
  let h := device_handle E devname in
  emit (EvOpenDevice devname h) ;;
  ret {| windows_driver := windows_driver tt; hand := Some h |}.

(** Modelled from the spec: [close_tun_handle] (tun.c) releases the
    handle, which "must not be observably usable afterward". *)
Definition close_tun_handle (tt : tuntap) : M tuntap :=
  match hand tt with
  | Some h =>
      emit (EvCloseHandle h) ;;
      ret {| windows_driver := windows_driver tt; hand := None |}
  | None => ret tt
  end.

(** ** dco_win.c *)

Definition create_dco_handle (E : env) (devname : string) : M tuntap :=
  let tt := {| windows_driver := WINDOWS_DRIVER_WINDCO; hand := None |} in
  tun_open_device E tt devname.

(** [dco_start_tun] (lines 69-85).  [tt->dco.tt = tt] makes the DCO
    context refer to the [tuntap]; the context is what the function leaves
    behind, so it is returned. *)
Definition dco_start_tun (E : env) (tt : tuntap) : M dco_context_t :=
  msg D_DCO_DEBUG "%s" [AStr "dco_start_tun"] ;;
  let dco := {| dco_tt := tt |} in
  ok <- DeviceIoControl E (hand tt) OVPN_IOCTL_START_VPN [] false ;;
  if ok then ret dco
  else
    err <- GetLastError ;;
    msg M_ERR "DeviceIoControl(OVPN_IOCTL_START_VPN) failed with code %lu"
      [ANum err] ;;
    ret dco.

Definition poll_interval_ms : Z := 50.

(** The [while] loop of [dco_connect_wait] (lines 93-128) together with
    the code behind it; one unit of fuel per test of the loop condition.
    [timeout_msec] is a [DWORD]: the decrement wraps modulo [2 ^ 32]. *)
Fixpoint dco_connect_wait_loop (E : env) (fuel : nat)
  (handle : option HANDLE) (timeout_msec : Z) : M Z :=
  match fuel with
  | O => fun _ => OutOfFuel
  | S fuel' =>
      if 0 <? timeout_msec then
        let timeout_msec := dword (timeout_msec - poll_interval_ms) in
        ok <- dco_get_overlapped_result E handle poll_interval_ms ;;
        if ok then ret 0
        else
          err <- GetLastError ;;
          if negb (err =? WAIT_TIMEOUT) && negb (err =? ERROR_IO_INCOMPLETE)
          then
            msg M_NONFATAL "%s: %s" [AStr "dco_connect_wait"; AStrerror err] ;;
            write_signal SIGUSR1 ;;
            ret (-1)
          else
            get_signal E ;;
            s <- read_signal ;;
            if negb (s =? 0) then ret (-1)
            else
              management_sleep 0 ;;
              dco_connect_wait_loop E fuel' handle timeout_msec
      else
        msg M_NONFATAL "%s: dco connect timeout" [AStr "dco_connect_wait"] ;;
        write_signal SIGUSR1 ;;
        ret (-1)
  end.

(** [dco_connect_wait] (lines 87-129): [timeout * 1000] is an [int]
    product, converted to [DWORD]. *)
Definition dco_connect_wait (E : env) (fuel : nat) (handle : option HANDLE)
  (timeout : Z) : M Z :=
  let timeout_msec := dword (int32 (timeout * 1000)) in
  dco_connect_wait_loop E fuel handle timeout_msec.

(** One [struct addrinfo]; the [ai_next] chain is the list it sits in.
    [ai_addr] is the socket address it points to. *)
Record addrinfo := {
  ai_family : Z;
  ai_socktype : Z;
  ai_protocol : Z;
  ai_addr : cmem
}.

(** [while (bind && !local)]: the scan for the local address. *)
Fixpoint bind_scan (family : Z) (bind : list addrinfo) (local : option cmem)
  : option cmem :=
  match bind, local with
  | b :: next, None =>
      bind_scan family next
        (if ai_family b =? family then Some (ai_addr b) else None)
  | _, _ => local
  end.

Definition is_null {A : Type} (p : option A) : bool :=
  match p with Some _ => false | None => true end.

(** [dco_create_socket], first half (lines 136-203): the [OVPN_NEW_PEER]
    descriptor.  A structure assignment through a cast pointer copies
    [sizeof] bytes. *)
Definition dco_create_socket_peer (L : abi) (remoteaddr : addrinfo)
  (bind_local : bool) (bind : list addrinfo) : M (list Z) :=
  msg D_DCO_DEBUG "%s" [AStr "dco_create_socket"] ;;
  let peer := ZeroMemory (sizeof_OVPN_NEW_PEER L) in
  let remote := ai_addr remoteaddr in
  let peer :=
    if (ai_protocol remoteaddr =? IPPROTO_TCP)
       || (ai_socktype remoteaddr =? SOCK_STREAM)
    then store (off_Proto L) (le_bytes 4 (OVPN_PROTO_TCP L)) peer
    else store (off_Proto L) (le_bytes 4 (OVPN_PROTO_UDP L)) peer in
  let local :=
    if bind_local then bind_scan (sa_family remote) bind None else None in
  (if bind_local && is_null local
   then msg M_FATAL
          "DCO: Socket bind failed: Address to bind lacks %s record"
          [AFamilyName (sa_family remote)]
   else ret tt) ;;
  if sa_family remote =? AF_INET6 then
    let peer :=
      store (off_Remote L)
        (read_bytes (ai_addr remoteaddr) sizeof_SOCKADDR_IN6) peer in
    match local with
    | Some l =>
        ret (store (off_Local L) (read_bytes l sizeof_SOCKADDR_IN6) peer)
    | None =>
        let peer := store (off_Local L + off_sin6_addr) in6addr_any peer in
        let peer := store (off_Local L + off_sin6_port) (le_bytes 2 0) peer in
        ret (store (off_Local L + off_sin6_family) (le_bytes 2 AF_INET6) peer)
    end
  else if sa_family remote =? AF_INET then
    let peer :=
      store (off_Remote L)
        (read_bytes (ai_addr remoteaddr) sizeof_SOCKADDR_IN) peer in
    match local with
    | Some l =>
        ret (store (off_Local L) (read_bytes l sizeof_SOCKADDR_IN) peer)
    | None =>
        let peer := store (off_Local L + off_sin_addr) in4addr_any peer in
        let peer := store (off_Local L + off_sin_port) (le_bytes 2 0) peer in
        ret (store (off_Local L + off_sin_family) (le_bytes 2 AF_INET) peer)
    end
  else
    ASSERT false ;;
    ret peer.

(** [dco_create_socket], second half (lines 205-223): the handle and
    the new-peer request. *)
Definition dco_create_socket_connect (E : env) (fuel : nat) (peer : list Z)
  (devname : string) (timeout : Z) : M tuntap :=
  tt <- create_dco_handle E devname ;;
  ok <- DeviceIoControl E (hand tt) OVPN_IOCTL_NEW_PEER peer true ;;
  if ok then ret tt
  else
    err <- GetLastError ;;
    if negb (err =? ERROR_IO_PENDING) then
      msg M_ERR "DeviceIoControl(OVPN_IOCTL_NEW_PEER) failed with code %lu"
        [ANum err] ;;
      ret tt
    else
      r <- dco_connect_wait E fuel (hand tt) timeout ;;
      if negb (r =? 0) then close_tun_handle tt else ret tt.

Definition dco_create_socket (L : abi) (E : env) (fuel : nat)
  (remoteaddr : addrinfo) (bind_local : bool) (bind : list addrinfo)
  (devname : string) (timeout : Z) : M tuntap :=
  peer <- dco_create_socket_peer L remoteaddr bind_local bind ;;
  dco_create_socket_connect E fuel peer devname timeout.

(** The local [OVPN_SET_PEER peer;] has no initialiser. *)
Definition uninitialised (E : env) (n : nat) : list Z :=
  map (stack_junk E) (seq 0 n).

(** [ovpn_set_peer] (lines 240-260), first the [OVPN_SET_PEER]
    descriptor. *)
Definition ovpn_set_peer_data (L : abi) (E : env)
  (keepalive_interval keepalive_timeout : Z) : list Z :=
  let peer := uninitialised E (sizeof_OVPN_SET_PEER L) in
  let peer :=
    store (off_KeepaliveInterval L) (le_bytes 4 keepalive_interval) peer in
  store (off_KeepaliveTimeout L) (le_bytes 4 keepalive_timeout) peer.

Definition ovpn_set_peer (L : abi) (E : env) (dco : dco_context_t)
  (peerid keepalive_interval keepalive_timeout : Z) : M Z :=
  msg D_DCO_DEBUG "%s: peer-id %d, keepalive %d/%d"
    [AStr "ovpn_set_peer"; ANum peerid; ANum keepalive_interval;
     ANum keepalive_timeout] ;;
  let peer := ovpn_set_peer_data L E keepalive_interval keepalive_timeout in
  ok <- DeviceIoControl E (hand (dco_tt dco)) OVPN_IOCTL_SET_PEER peer false ;;
  if ok then ret 0
  else
    err <- GetLastError ;;
    msg M_WARN "DeviceIoControl(OVPN_IOCTL_SET_PEER) failed with code %lu"
      [ANum err] ;;
    ret (-1).

(** [dco_new_key] (lines 262-303), first the [OVPN_CRYPTO_DATA]
    descriptor.  [cipher_kt_key_size] gives a size, [key_len] is a
    [size_t]; the cast [(char)key_len] keeps its low byte. *)
Definition dco_new_key_data (L : abi) (E : env) (peerid keyid slot : Z)
  (encrypt_key encrypt_iv decrypt_key decrypt_iv : cmem)
  (ciphername : string) : list Z :=
  let nonce_len := 8%nat in
  let key_len := cipher_kt_key_size E ciphername in
  let crypto_data := ZeroMemory (sizeof_OVPN_CRYPTO_DATA L) in
  let crypto_data :=
    store (off_CipherAlg L) (le_bytes 4 (dco_get_cipher E ciphername))
      crypto_data in
  let crypto_data := store (off_KeyId L) (le_bytes 1 keyid) crypto_data in
  let crypto_data := store (off_PeerId L) (le_bytes 4 peerid) crypto_data in
  let crypto_data := store (off_KeySlot L) (le_bytes 4 slot) crypto_data in
  let crypto_data :=
    store (off_Encrypt L + off_Key L) (read_bytes encrypt_key key_len)
      crypto_data in
  let crypto_data :=
    store (off_Encrypt L + off_KeyLen L) (le_bytes 1 (Z.of_nat key_len))
      crypto_data in
  let crypto_data :=
    store (off_Encrypt L + off_NonceTail L) (read_bytes encrypt_iv nonce_len)
      crypto_data in
  let crypto_data :=
    store (off_Decrypt L + off_Key L) (read_bytes decrypt_key key_len)
      crypto_data in
  let crypto_data :=
    store (off_Decrypt L + off_KeyLen L) (le_bytes 1 (Z.of_nat key_len))
      crypto_data in
  store (off_Decrypt L + off_NonceTail L) (read_bytes decrypt_iv nonce_len)
    crypto_data.

(** [crypto_data.CipherAlg] read back as the value of the enumeration:
    as an [int] where the compiler makes it signed, as an [unsigned int]
    where it does not.  [ASSERT(crypto_data.CipherAlg > 0)] compares in
    that type. *)
Definition CipherAlg (L : abi) (crypto_data : list Z) : Z :=
  let bits := le_decode (slice (off_CipherAlg L) 4 crypto_data) in
  if enum_signed L then int32 bits else bits.

Definition dco_new_key (L : abi) (E : env) (dco : dco_context_t)
  (peerid keyid slot : Z)
  (encrypt_key encrypt_iv decrypt_key decrypt_iv : cmem)
  (ciphername : string) : M Z :=
  msg D_DCO_DEBUG "%s: slot %d, key-id %d, peer-id %d, cipher %s"
    [AStr "dco_new_key"; ANum slot; ANum keyid; ANum peerid;
     AStr ciphername] ;;
  let crypto_data :=
    dco_new_key_data L E peerid keyid slot encrypt_key encrypt_iv
      decrypt_key decrypt_iv ciphername in
  ASSERT (0 <? CipherAlg L crypto_data) ;;
  ok <- DeviceIoControl E (hand (dco_tt dco)) OVPN_IOCTL_NEW_KEY crypto_data
          false ;;
  if ok then ret 0
  else
    err <- GetLastError ;;
    msg M_ERR "DeviceIoControl(OVPN_IOCTL_NEW_KEY) failed with code %lu"
      [ANum err] ;;
    ret (-1).

Definition dco_del_key (dco : dco_context_t) (peerid slot : Z) : M Z :=
  msg D_DCO "%s: peer-id %d, slot %d called but ignored"
    [AStr "dco_del_key"; ANum peerid; ANum slot] ;;
  ret 0.

Definition dco_swap_keys (E : env) (dco : dco_context_t) (peer_id : Z)
  : M Z :=
  msg D_DCO_DEBUG "%s: peer-id %d" [AStr "dco_swap_keys"; ANum peer_id] ;;
  ok <- DeviceIoControl E (hand (dco_tt dco)) OVPN_IOCTL_SWAP_KEYS [] false ;;
  if ok then ret 0
  else
    err <- GetLastError ;;
    msg M_ERR "DeviceIoControl(OVPN_IOCTL_SWAP_KEYS) failed with code %lu"
      [ANum err] ;;
    ret (-1).

(** ** Quantities used to state the results *)

(** The number of polls that exhaust the budget: the least [n] for which
    [timeout * 1000 - 50 * n] is 0 modulo [2 ^ 32], the arithmetic of the
    [DWORD timeout_msec]. *)
Definition poll_budget (timeout : Z) : Z := (20 * timeout) mod 2 ^ 31.

(** The calls of one poll that finds the request still pending and no
    signal. *)
Definition poll_events (h : option HANDLE) : list event :=
  [EvWait h poll_interval_ms; EvGetSignal; EvReadSignal; EvSleep 0].

(** The world after such a poll. *)
Definition idle_poll (E : env) (h : option HANDLE) (w : world) : world :=
  {| w_signal := signal_env E (S (w_waits w)) (w_signal w);
     w_last_error :=
       match wait_reply E (w_waits w) with
       | WinOk => w_last_error w
       | WinErr e => e
       end;
     w_ioctls := w_ioctls w;
     w_waits := S (w_waits w);
     w_trace := w_trace w ++ poll_events h |}.

(** The world after [n] such polls in a row. *)
Fixpoint idle_polls (E : env) (h : option HANDLE) (n : nat) (w : world)
  : world :=
  match n with
  | O => w
  | S n' => idle_polls E h n' (idle_poll E h w)
  end.

(** The world once [dco_create_socket] has opened the device and issued
    the new-peer request with descriptor [peer]. *)
Definition submitted (E : env) (peer : list Z) (devname : string)
  (w : world) : world :=
  let h := device_handle E devname in
  {| w_signal := w_signal w;
     w_last_error :=
       match ioctl_reply E (w_ioctls w) with
       | WinOk => w_last_error w
       | WinErr e => e
       end;
     w_ioctls := S (w_ioctls w);
     w_waits := w_waits w;
     w_trace := w_trace w ++
       [EvOpenDevice devname h;
        EvIoctl (Some h) OVPN_IOCTL_NEW_PEER peer true] |}.

(** The [struct tuntap] that [dco_create_socket] returns: with the open
    handle, or without it after [close_tun_handle]. *)
Definition tt_open (E : env) (devname : string) : tuntap :=
  {| windows_driver := WINDOWS_DRIVER_WINDCO;
     hand := Some (device_handle E devname) |}.

Definition tt_closed : tuntap :=
  {| windows_driver := WINDOWS_DRIVER_WINDCO; hand := None |}.

Definition still_pending (r : winres) : Prop :=
  r = WinErr WAIT_TIMEOUT \/ r = WinErr ERROR_IO_INCOMPLETE.

Definition is_close (e : event) : bool :=
  match e with EvCloseHandle _ => true | _ => false end.

(** How often the handle has been released so far. *)
Definition closes (w : world) : nat := length (filter is_close (w_trace w)).

Definition is_signal_access (e : event) : bool :=
  match e with
  | EvGetSignal | EvReadSignal | EvWriteSignal _ => true
  | _ => false
  end.

(** The accesses to the cancellation flag so far. *)
Definition signal_accesses (w : world) : list event :=
  filter is_signal_access (w_trace w).

Definition is_key_request (e : event) : bool :=
  match e with
  | EvIoctl _ OVPN_IOCTL_NEW_KEY _ _ => true
  | EvIoctl _ OVPN_IOCTL_SWAP_KEYS _ _ => true
  | _ => false
  end.

(** The requests that install or rotate key material. *)
Definition key_requests (w : world) : list event :=
  filter is_key_request (w_trace w).

Definition is_driver_call (e : event) : bool :=
  match e with EvIoctl _ _ _ _ => true | _ => false end.

Definition driver_calls (tr : list event) : list event :=
  filter is_driver_call tr.

Definition in_range (off n i : nat) : bool :=
  ((off <=? i) && (i <? off + n))%nat.

(** Two byte ranges that do not overlap. *)
Definition disjoint (a n b m : nat) : Prop := (a + n <= b \/ b + m <= a)%nat.

(** The size of the socket address of a family, and where its address
    field lies. *)
Definition sizeof_sockaddr (family : Z) : nat :=
  if family =? AF_INET6 then sizeof_SOCKADDR_IN6 else sizeof_SOCKADDR_IN.

(** The wildcard endpoint of a family as it lies in memory: the family,
    port 0, the any-address, and zero in every other byte. *)
Definition wildcard (family : Z) : list Z :=
  if family =? AF_INET6
  then le_bytes 2 AF_INET6 ++ [0; 0] ++ repeat 0 4%nat ++ in6addr_any
       ++ repeat 0 4%nat
  else le_bytes 2 AF_INET ++ [0; 0] ++ in4addr_any ++ repeat 0 8%nat.

(** [Local], [Remote] and [Proto] lie inside [OVPN_NEW_PEER] and do not
    overlap; the two unions have room for a [SOCKADDR_IN6]. *)
Definition peer_layout_ok (L : abi) : Prop :=
  (off_Local L + sizeof_SOCKADDR_IN6 <= sizeof_OVPN_NEW_PEER L)%nat
  /\ (off_Remote L + sizeof_SOCKADDR_IN6 <= sizeof_OVPN_NEW_PEER L)%nat
  /\ (off_Proto L + 4 <= sizeof_OVPN_NEW_PEER L)%nat
  /\ disjoint (off_Local L) sizeof_SOCKADDR_IN6
       (off_Remote L) sizeof_SOCKADDR_IN6
  /\ disjoint (off_Local L) sizeof_SOCKADDR_IN6 (off_Proto L) 4
  /\ disjoint (off_Remote L) sizeof_SOCKADDR_IN6 (off_Proto L) 4.

(** The two fields of [OVPN_SET_PEER] lie inside it and do not overlap. *)
Definition set_peer_layout_ok (L : abi) : Prop :=
  (off_KeepaliveInterval L + 4 <= sizeof_OVPN_SET_PEER L)%nat
  /\ (off_KeepaliveTimeout L + 4 <= sizeof_OVPN_SET_PEER L)%nat
  /\ disjoint (off_KeepaliveInterval L) 4 (off_KeepaliveTimeout L) 4.

(** The fields of [OVPN_CRYPTO_DATA] lie in the order of the driver
    header, without overlap: the two key directions (key, key length,
    nonce tail), then the slot, the cipher, the key id and the peer id. *)
Definition crypto_layout_ok (L : abi) : Prop :=
  (off_Key L + sizeof_Key L <= off_KeyLen L)%nat
  /\ (off_KeyLen L + 1 <= off_NonceTail L)%nat
  /\ (off_Encrypt L + off_NonceTail L + 8 <= off_Decrypt L)%nat
  /\ (off_Decrypt L + off_NonceTail L + 8 <= off_KeySlot L)%nat
  /\ (off_KeySlot L + 4 <= off_CipherAlg L)%nat
  /\ (off_CipherAlg L + 4 <= off_KeyId L)%nat
  /\ (off_KeyId L + 1 <= off_PeerId L)%nat
  /\ (off_PeerId L + 4 <= sizeof_OVPN_CRYPTO_DATA L)%nat.




(** What the caller sees of a call: the value returned, or nothing when
    the process ended or the fuel ran out. *)
Definition status {A : Type} (o : outcome A) : option A :=
  match o with
  | Returned a _ => Some a
  | _ => None
  end.

(** ** Concrete inputs *)

Definition world0 : world :=
  {| w_signal := 0; w_last_error := 0; w_ioctls := 0; w_waits := 0;
     w_trace := [] |}.

(** Modelled from the spec: the cipher tables of crypto.h and dco.h are
    not part of the sources; "AES-256-GCM" has a 32-byte key, and the
    AES-GCM family and ChaCha20-Poly1305 are the ciphers of the driver. *)
Definition spec_cipher_kt_key_size (ciphername : string) : nat :=
  if String.eqb ciphername "AES-256-GCM" then 32
  else if String.eqb ciphername "AES-192-GCM" then 24
  else if String.eqb ciphername "AES-128-GCM" then 16
  else if String.eqb ciphername "CHACHA20-POLY1305" then 32
  else 0.

Definition spec_dco_get_cipher (ciphername : string) : Z :=
  if String.eqb ciphername "AES-256-GCM" then 1
  else if String.eqb ciphername "AES-192-GCM" then 1
  else if String.eqb ciphername "AES-128-GCM" then 1
  else if String.eqb ciphername "CHACHA20-POLY1305" then 2
  else 0.

(** A driver that accepts the new-peer request as pending and never
    completes it, with no signal arriving. *)
Definition env_never : env :=
  {| ioctl_reply := fun _ => WinErr ERROR_IO_PENDING;
     wait_reply := fun _ => WinErr WAIT_TIMEOUT;
     signal_env := fun _ f => f;
     device_handle := fun _ => 1000;
     cipher_kt_key_size := spec_cipher_kt_key_size;
     dco_get_cipher := spec_dco_get_cipher;
     stack_junk := fun _ => 204 |}.

(** A driver that answers every request at once with success. *)
Definition env_ok : env :=
  {| ioctl_reply := fun _ => WinOk;
     wait_reply := fun _ => WinOk;
     signal_env := fun _ f => f;
     device_handle := fun _ => 1000;
     cipher_kt_key_size := spec_cipher_kt_key_size;
     dco_get_cipher := spec_dco_get_cipher;
     stack_junk := fun _ => 204 |}.

(** A driver that refuses every request with [ERROR_ACCESS_DENIED]. *)
Definition env_denied : env :=
  {| ioctl_reply := fun _ => WinErr 5;
     wait_reply := fun _ => WinErr 5;
     signal_env := fun _ f => f;
     device_handle := fun _ => 1000;
     cipher_kt_key_size := spec_cipher_kt_key_size;
     dco_get_cipher := spec_dco_get_cipher;
     stack_junk := fun _ => 204 |}.

(** Pending, then two idle polls, then [SIGTERM] (15) arrives. *)
Definition env_sigterm : env :=
  {| ioctl_reply := fun _ => WinErr ERROR_IO_PENDING;
     wait_reply := fun _ => WinErr WAIT_TIMEOUT;
     signal_env := fun n f => if (3 <=? n)%nat then 15 else f;
     device_handle := fun _ => 1000;
     cipher_kt_key_size := spec_cipher_kt_key_size;
     dco_get_cipher := spec_dco_get_cipher;
     stack_junk := fun _ => 204 |}.

(** Pending, then two idle polls, then the connection is refused
    ([ERROR_CONNECTION_REFUSED], 1225). *)
Definition env_refused : env :=
  {| ioctl_reply := fun _ => WinErr ERROR_IO_PENDING;
     wait_reply :=
       fun n => if (2 <=? n)%nat then WinErr 1225 else WinErr WAIT_TIMEOUT;
     signal_env := fun _ f => f;
     device_handle := fun _ => 1000;
     cipher_kt_key_size := spec_cipher_kt_key_size;
     dco_get_cipher := spec_dco_get_cipher;
     stack_junk := fun _ => 204 |}.

(** 203.0.113.5:1194 as a [SOCKADDR_IN]; 238 fills the memory behind. *)
Definition sockaddr_v4 : cmem :=
  {| mem_bytes := [2; 0; 4; 170; 203; 0; 113; 5; 0; 0; 0; 0; 0; 0; 0; 0];
     mem_beyond := fun _ => 238 |}.

(** 192.0.2.7:0 as a [SOCKADDR_IN]. *)
Definition sockaddr_local_v4 : cmem :=
  {| mem_bytes := [2; 0; 0; 0; 192; 0; 2; 7; 0; 0; 0; 0; 0; 0; 0; 0];
     mem_beyond := fun _ => 238 |}.

(** [2001:db8::1]:1194 as a [SOCKADDR_IN6]. *)
Definition sockaddr_v6 : cmem :=
  {| mem_bytes := [23; 0; 4; 170; 0; 0; 0; 0;
                   32; 1; 13; 184; 0; 0; 0; 0; 0; 0; 0; 0; 0; 0; 0; 1;
                   0; 0; 0; 0];
     mem_beyond := fun _ => 238 |}.

Definition remote_udp_v4 : addrinfo :=
  {| ai_family := AF_INET; ai_socktype := 2; ai_protocol := 17;
     ai_addr := sockaddr_v4 |}.

Definition local_v4 : addrinfo :=
  {| ai_family := AF_INET; ai_socktype := 2; ai_protocol := 17;
     ai_addr := sockaddr_local_v4 |}.

Definition local_v6 : addrinfo :=
  {| ai_family := AF_INET6; ai_socktype := 2; ai_protocol := 17;
     ai_addr := sockaddr_v6 |}.

(** A 16-byte key buffer, and what lies behind it in memory. *)
Definition key16 : cmem :=
  {| mem_bytes := repeat 17 16%nat; mem_beyond := fun _ => 238 |}.

Definition key32 : cmem :=
  {| mem_bytes := repeat 34 32%nat; mem_beyond := fun _ => 238 |}.

Definition iv8 : cmem :=
  {| mem_bytes := [1; 2; 3; 4; 5; 6; 7; 8]; mem_beyond := fun _ => 238 |}.

Definition dco0 : dco_context_t :=
  {| dco_tt := {| windows_driver := WINDOWS_DRIVER_WINDCO;
                  hand := Some 1000 |} |}.

(** ** The rest of dco_win.c *)

(** [dco_new_peer] (lines 226-232): the addresses are not looked at. *)
Definition dco_new_peer (dco : dco_context_t) (peerid sd : Z)
  (localaddr remoteaddr remote_in4 remote_in6 : cmem) : M Z :=
  msg D_DCO_DEBUG "%s: peer-id %d, fd %d"
    [AStr "dco_new_peer"; ANum peerid; ANum sd] ;;
  ret 0.

(** [dco_del_peer] (lines 234-238). *)
Definition dco_del_peer (dco : dco_context_t) (peerid : Z) : M Z :=
  msg D_DCO_DEBUG "%s: peer-id %d - not implemented"
    [AStr "dco_del_peer"; ANum peerid] ;;
  ret 0.

Definition is_signal_write (e : event) : bool :=
  match e with EvWriteSignal _ => true | _ => false end.

(** The writes dco_win.c itself has made to the cancellation flag. *)
Definition signal_writes (w : world) : list event :=
  filter is_signal_write (w_trace w).

(** Pending, two idle polls, then the request completes at the third;
    [SIGTERM] is raised at the same time. *)
Definition env_third : env :=
  {| ioctl_reply := fun _ => WinErr ERROR_IO_PENDING;
     wait_reply :=
       fun n => if (2 <=? n)%nat then WinOk else WinErr WAIT_TIMEOUT;
     signal_env := fun n f => if (3 <=? n)%nat then 15 else f;
     device_handle := fun _ => 1000;
     cipher_kt_key_size := spec_cipher_kt_key_size;
     dco_get_cipher := spec_dco_get_cipher;
     stack_junk := fun _ => 204 |}.

(** A socket address of family 1 ([AF_UNIX]). *)
Definition sockaddr_unix : cmem :=
  {| mem_bytes := [1; 0; 47; 116; 109; 112; 47; 115; 0; 0; 0; 0; 0; 0; 0; 0];
     mem_beyond := fun _ => 238 |}.

Definition remote_unix : addrinfo :=
  {| ai_family := 1; ai_socktype := 1; ai_protocol := 0;
     ai_addr := sockaddr_unix |}.

Definition remote_tcp_v6 : addrinfo :=
  {| ai_family := AF_INET6; ai_socktype := SOCK_STREAM;
     ai_protocol := IPPROTO_TCP; ai_addr := sockaddr_v6 |}.

(** A 40-byte buffer that starts like [key32]. *)
Definition key40 : cmem :=
  {| mem_bytes := repeat 34 32%nat ++ repeat 85 8%nat;
     mem_beyond := fun _ => 0 |}.

(** Cipher tables that answer an unknown name with a negative error code
    (-95, the value of [-ENOTSUP]). *)
Definition env_enotsup : env :=
  {| ioctl_reply := fun _ => WinOk;
     wait_reply := fun _ => WinOk;
     signal_env := fun _ f => f;
     device_handle := fun _ => 1000;
     cipher_kt_key_size := spec_cipher_kt_key_size;
     dco_get_cipher :=
       fun name => if spec_dco_get_cipher name =? 0 then -95
                   else spec_dco_get_cipher name;
     stack_junk := fun _ => 204 |}.

(** A second environment for the same driver, with other stack contents. *)
Definition env_ok_clean_stack : env :=
  {| ioctl_reply := fun _ => WinOk;
     wait_reply := fun _ => WinOk;
     signal_env := fun _ f => f;
     device_handle := fun _ => 1000;
     cipher_kt_key_size := spec_cipher_kt_key_size;
     dco_get_cipher := spec_dco_get_cipher;
     stack_junk := fun _ => 0 |}.

(** * Results *)

(** ** Machine integers and memory *)

Lemma dword_int32 z : dword (int32 z) = dword z.
Proof.
  unfold dword, int32.
  rewrite Zminus_mod_idemp_l.
  f_equal. lia.
Qed.

Lemma dword_range z : 0 <= dword z < 2 ^ 32.
Proof. unfold dword. apply Z.mod_pos_bound. lia. Qed.

Lemma dword_sub_l a b : dword (dword a - b) = dword (a - b).
Proof. unfold dword. apply Zminus_mod_idemp_l. Qed.

Lemma le_bytes_length n v : length (le_bytes n v) = n.
Proof. revert v. induction n; intros; simpl; auto. Qed.

Lemma le_decode_le_bytes n v :
  le_decode (le_bytes n v) = v mod 256 ^ Z.of_nat n.
Proof.
  revert v. induction n as [|n IH]; intros v.
  - simpl. now rewrite Z.mod_1_r.
  - cbn [le_bytes le_decode]. rewrite IH.
    rewrite Nat2Z.inj_succ, Z.pow_succ_r by lia.
    rewrite Z.rem_mul_r by lia. lia.
Qed.

Lemma read_bytes_length p n : length (read_bytes p n) = n.
Proof. unfold read_bytes. now rewrite length_map, length_seq. Qed.

Lemma nth_read_bytes p n i d :
  (i < n)%nat -> nth i (read_bytes p n) d = load p i.
Proof.
  intros Hi. unfold read_bytes.
  rewrite (nth_indep _ d (load p 0)) by now rewrite length_map, length_seq.
  rewrite map_nth, seq_nth by assumption. reflexivity.
Qed.

Lemma load_inside p i :
  (i < length (mem_bytes p))%nat -> load p i = nth i (mem_bytes p) 0.
Proof.
  intros Hi. unfold load.
  destruct (nth_error (mem_bytes p) i) eqn:Hn.
  - symmetry. now apply nth_error_nth.
  - apply nth_error_None in Hn. lia.
Qed.

Lemma load_beyond p i :
  (length (mem_bytes p) <= i)%nat ->
  load p i = mem_beyond p (i - length (mem_bytes p)).
Proof.
  intros Hi. unfold load.
  apply nth_error_None in Hi. now rewrite Hi.
Qed.

(** A read that stays inside the object sees the object alone. *)
Lemma read_bytes_inside p n :
  (n <= length (mem_bytes p))%nat -> read_bytes p n = firstn n (mem_bytes p).
Proof.
  intros Hn. apply (nth_ext _ _ 0 0).
  - rewrite read_bytes_length, length_firstn. lia.
  - intros i Hi. rewrite read_bytes_length in Hi.
    rewrite nth_read_bytes, load_inside, nth_firstn by lia.
    destruct (Nat.ltb_spec i n); [reflexivity | lia].
Qed.

Lemma ZeroMemory_length n : length (ZeroMemory n) = n.
Proof. apply repeat_length. Qed.

Lemma nth_ZeroMemory n i : nth i (ZeroMemory n) 0 = 0.
Proof.
  unfold ZeroMemory. revert i.
  induction n; destruct i; simpl; auto.
Qed.

Lemma store_length off data blk : length (store off data blk) = length blk.
Proof.
  revert off data. induction blk as [|b blk IH]; intros off data; simpl.
  - reflexivity.
  - destruct off; [destruct data|]; simpl; auto.
Qed.

Lemma nth_store off data blk i d :
  (i < length blk)%nat ->
  nth i (store off data blk) d =
  if in_range off (length data) i then nth (i - off) data d else nth i blk d.
Proof.
  unfold in_range. revert off data i.
  induction blk as [|b blk IH]; intros off data i Hi; simpl in Hi; [lia|].
  destruct off as [|off].
  - destruct data as [|x data].
    + simpl. destruct i; reflexivity.
    + destruct i as [|i]; [reflexivity|].
      cbn [store nth]. rewrite IH by lia.
      cbn [length Nat.leb andb]. simpl.
      rewrite Nat.sub_0_r. reflexivity.
  - destruct i as [|i]; [reflexivity|].
    cbn [store nth]. rewrite IH by lia.
    reflexivity.
Qed.

(** A byte outside the written range keeps its value. *)
Lemma nth_store_outside off data blk i d :
  in_range off (length data) i = false ->
  nth i (store off data blk) d = nth i blk d.
Proof.
  intros Hout.
  destruct (Nat.lt_ge_cases i (length blk)) as [Hi|Hi].
  - now rewrite nth_store, Hout.
  - rewrite !nth_overflow; auto. now rewrite store_length.
Qed.

Lemma slice_length off n blk :
  (off + n <= length blk)%nat -> length (slice off n blk) = n.
Proof.
  intros H. unfold slice. rewrite length_firstn, length_skipn. lia.
Qed.

Lemma nth_slice off n blk i d :
  (i < n)%nat -> nth i (slice off n blk) d = nth (off + i) blk d.
Proof.
  intros Hi. unfold slice.
  rewrite nth_firstn.
  destruct (Nat.ltb_spec i n); [|lia].
  now rewrite nth_skipn.
Qed.

(** Reading back what was just written. *)
Lemma slice_store_same off data blk n :
  n = length data ->
  (off + n <= length blk)%nat ->
  slice off n (store off data blk) = data.
Proof.
  intros -> H. apply (nth_ext _ _ 0 0).
  - rewrite slice_length; [reflexivity | now rewrite store_length].
  - intros i Hi. rewrite slice_length in Hi by now rewrite store_length.
    rewrite nth_slice, nth_store by lia.
    unfold in_range.
    destruct (Nat.leb_spec off (off + i)); [|lia].
    destruct (Nat.ltb_spec (off + i) (off + length data)); [|lia].
    simpl. f_equal. lia.
Qed.

(** A write leaves every disjoint range alone. *)
Lemma slice_store_other off data blk off' n :
  (off' + n <= off \/ off + length data <= off')%nat ->
  slice off' n (store off data blk) = slice off' n blk.
Proof.
  intros Hdis.
  destruct (Nat.le_gt_cases (off' + n) (length blk)) as [Hin|Hin].
  - apply (nth_ext _ _ 0 0).
    + rewrite !slice_length; auto. now rewrite store_length.
    + intros i Hi. rewrite slice_length in Hi by now rewrite store_length.
      rewrite !nth_slice by lia.
      apply nth_store_outside. unfold in_range.
      destruct (Nat.leb_spec off (off' + i));
        destruct (Nat.ltb_spec (off' + i) (off + length data));
        simpl; try reflexivity; lia.
  - unfold slice. apply (nth_ext _ _ 0 0).
    + rewrite !length_firstn, !length_skipn, store_length. reflexivity.
    + intros i Hi. rewrite length_firstn, length_skipn, store_length in Hi.
      rewrite !nth_firstn, !nth_skipn.
      destruct (i <? n)%nat eqn:Hlt; [|reflexivity].
      apply Nat.ltb_lt in Hlt.
      apply nth_store_outside. unfold in_range.
      destruct (Nat.leb_spec off (off' + i));
        destruct (Nat.ltb_spec (off' + i) (off + length data));
        simpl; try reflexivity; lia.
Qed.

(** ** The arithmetic of the poll budget *)

Lemma budget_positive r :
  0 < r < 2 ^ 31 -> 0 < dword (50 * r).
Proof.
  intros Hr. pose proof (dword_range (50 * r)) as Hd.
  assert (dword (50 * r) <> 0); [|lia].
  unfold dword. intros H0.
  apply Z.mod_divide in H0; [|lia].
  assert (Hdiv : (2 ^ 31 | 25 * r)).
  { destruct H0 as [q Hq]. exists q. lia. }
  apply Z.gauss in Hdiv; [|reflexivity].
  apply Z.divide_pos_le in Hdiv; lia.
Qed.

Lemma budget_step r :
  dword (dword (50 * r) - poll_interval_ms) = dword (50 * (r - 1)).
Proof.
  rewrite dword_sub_l. f_equal. unfold poll_interval_ms. lia.
Qed.

Lemma budget_start timeout :
  dword (int32 (timeout * 1000)) = dword (50 * poll_budget timeout).
Proof.
  rewrite dword_int32. unfold dword, poll_budget.
  rewrite (Z.mod_eq (20 * timeout) (2 ^ 31)) by lia.
  replace (50 * (20 * timeout - 2 ^ 31 * (20 * timeout / 2 ^ 31)))
    with (timeout * 1000 + (- (25 * (20 * timeout / 2 ^ 31))) * 2 ^ 32) by lia.
  now rewrite Z.mod_add by lia.
Qed.

Lemma poll_budget_range timeout : 0 <= poll_budget timeout < 2 ^ 31.
Proof. unfold poll_budget. apply Z.mod_pos_bound. lia. Qed.

Lemma poll_budget_small timeout :
  0 <= timeout -> 20 * timeout < 2 ^ 31 ->
  poll_budget timeout = timeout * 1000 / 50.
Proof.
  intros H0 H1. unfold poll_budget.
  rewrite Z.mod_small by lia.
  replace (timeout * 1000) with (20 * timeout * 50) by lia.
  now rewrite Z.div_mul by lia.
Qed.

(** ** The wait loop *)

Ltac world_simpl :=
  cbn [win_ok w_last_error w_signal w_waits w_trace w_ioctls negb andb
       msg_exits hand windows_driver].

Ltac run_monad :=
  unfold mbind, ret, dco_get_overlapped_result, DeviceIoControl, GetLastError,
    get_signal, read_signal, write_signal, management_sleep, msg, emit, log;
  world_simpl.

Ltac same_world :=
  world_simpl; rewrite <- ?app_assoc; cbn [app]; reflexivity.

Lemma still_pending_inv r :
  still_pending r ->
  exists err, r = WinErr err /\
    negb (err =? WAIT_TIMEOUT) && negb (err =? ERROR_IO_INCOMPLETE) = false.
Proof.
  intros [-> | ->]; eexists; split; reflexivity.
Qed.

(** A poll that finds the request pending and no signal goes round the
    loop: the condition is tested again on the decremented budget. *)
Lemma wait_loop_idle E fuel h T w :
  0 < T ->
  still_pending (wait_reply E (w_waits w)) ->
  signal_env E (S (w_waits w)) (w_signal w) = 0 ->
  dco_connect_wait_loop E (S fuel) h T w =
  dco_connect_wait_loop E fuel h (dword (T - poll_interval_ms))
    (idle_poll E h w).
Proof.
  intros HT Hp Hs.
  apply still_pending_inv in Hp. destruct Hp as (err & Hr & Herr).
  cbn [dco_connect_wait_loop].
  apply Z.ltb_lt in HT. rewrite HT.
  unfold idle_poll, poll_events. run_monad.
  rewrite Hr. world_simpl. rewrite Herr. world_simpl.
  rewrite Hs. cbn [Z.eqb negb]. same_world.
Qed.

(** The request completes during the poll. *)
Lemma wait_loop_done E fuel h T w :
  0 < T ->
  wait_reply E (w_waits w) = WinOk ->
  dco_connect_wait_loop E (S fuel) h T w =
  Returned 0
    {| w_signal := w_signal w;
       w_last_error := w_last_error w;
       w_ioctls := w_ioctls w;
       w_waits := S (w_waits w);
       w_trace := w_trace w ++ [EvWait h poll_interval_ms] |}.
Proof.
  intros HT Hr. cbn [dco_connect_wait_loop].
  apply Z.ltb_lt in HT. rewrite HT.
  run_monad. rewrite Hr. reflexivity.
Qed.

(** The poll reports a driver error. *)
Lemma wait_loop_error E fuel h T w err :
  0 < T ->
  wait_reply E (w_waits w) = WinErr err ->
  err <> WAIT_TIMEOUT -> err <> ERROR_IO_INCOMPLETE ->
  dco_connect_wait_loop E (S fuel) h T w =
  Returned (-1)
    {| w_signal := SIGUSR1;
       w_last_error := err;
       w_ioctls := w_ioctls w;
       w_waits := S (w_waits w);
       w_trace := w_trace w ++
         [EvWait h poll_interval_ms;
          EvMsg M_NONFATAL "%s: %s" [AStr "dco_connect_wait"; AStrerror err];
          EvWriteSignal SIGUSR1] |}.
Proof.
  intros HT Hr H1 H2. cbn [dco_connect_wait_loop].
  apply Z.ltb_lt in HT. rewrite HT.
  run_monad. rewrite Hr. world_simpl.
  apply Z.eqb_neq in H1, H2. rewrite H1, H2. same_world.
Qed.

(** The poll finds the request pending and the flag set. *)
Lemma wait_loop_cancel E fuel h T w :
  0 < T ->
  still_pending (wait_reply E (w_waits w)) ->
  signal_env E (S (w_waits w)) (w_signal w) <> 0 ->
  dco_connect_wait_loop E (S fuel) h T w =
  Returned (-1)
    {| w_signal := signal_env E (S (w_waits w)) (w_signal w);
       w_last_error :=
         match wait_reply E (w_waits w) with
         | WinOk => w_last_error w
         | WinErr e => e
         end;
       w_ioctls := w_ioctls w;
       w_waits := S (w_waits w);
       w_trace := w_trace w ++
         [EvWait h poll_interval_ms; EvGetSignal; EvReadSignal] |}.
Proof.
  intros HT Hp Hs.
  apply still_pending_inv in Hp. destruct Hp as (err & Hr & Herr).
  cbn [dco_connect_wait_loop].
  apply Z.ltb_lt in HT. rewrite HT.
  run_monad. rewrite Hr. world_simpl. rewrite Herr. world_simpl.
  apply Z.eqb_neq in Hs. rewrite Hs. same_world.
Qed.

(** The budget is used up. *)
Lemma wait_loop_timeout E fuel h w :
  dco_connect_wait_loop E (S fuel) h 0 w =
  Returned (-1)
    {| w_signal := SIGUSR1;
       w_last_error := w_last_error w;
       w_ioctls := w_ioctls w;
       w_waits := w_waits w;
       w_trace := w_trace w ++
         [EvMsg M_NONFATAL "%s: dco connect timeout"
            [AStr "dco_connect_wait"];
          EvWriteSignal SIGUSR1] |}.
Proof.
  cbn [dco_connect_wait_loop Z.ltb Z.compare].
  run_monad. same_world.
Qed.

Lemma idle_polls_waits E h n w :
  w_waits (idle_polls E h n w) = (w_waits w + n)%nat.
Proof.
  revert w. induction n as [|n IH]; intros w; simpl.
  - lia.
  - rewrite IH. simpl. lia.
Qed.

Lemma idle_polls_ioctls E h n w :
  w_ioctls (idle_polls E h n w) = w_ioctls w.
Proof.
  revert w. induction n as [|n IH]; intros w; simpl; auto.
  now rewrite IH.
Qed.

Lemma idle_polls_trace E h n w :
  w_trace (idle_polls E h n w) =
  w_trace w ++ List.concat (repeat (poll_events h) n).
Proof.
  revert w. induction n as [|n IH]; intros w.
  - simpl. now rewrite app_nil_r.
  - cbn [idle_polls repeat List.concat]. rewrite IH.
    cbn [idle_poll w_trace]. now rewrite <- app_assoc.
Qed.

(** [n] idle polls in a row, starting with [r >= n] polls left in the
    budget and no signal. *)
Lemma wait_loop_idle_prefix E h n :
  forall r fuel w,
    Z.of_nat n <= r < 2 ^ 31 ->
    w_signal w = 0 ->
    (forall j, (j < n)%nat ->
       still_pending (wait_reply E (w_waits w + j)) /\
       signal_env E (S (w_waits w + j)) 0 = 0) ->
    dco_connect_wait_loop E (n + fuel) h (dword (50 * r)) w =
    dco_connect_wait_loop E fuel h (dword (50 * (r - Z.of_nat n)))
      (idle_polls E h n w)
    /\ w_signal (idle_polls E h n w) = 0.
Proof.
  induction n as [|n IH]; intros r fuel w Hr Hs Hidle.
  - cbn [idle_polls Nat.add Z.of_nat]. rewrite Z.sub_0_r. auto.
  - destruct (Hidle 0%nat ltac:(lia)) as [Hp H0].
    rewrite Nat.add_0_r in Hp, H0.
    cbn [Nat.add idle_polls].
    rewrite wait_loop_idle; auto.
    2: apply budget_positive; lia.
    2: now rewrite Hs.
    rewrite budget_step.
    destruct (IH (r - 1) fuel (idle_poll E h w)) as [Heq Hsig].
    + lia.
    + cbn [idle_poll w_signal]. now rewrite Hs.
    + intros j Hj. cbn [idle_poll w_waits].
      destruct (Hidle (S j) ltac:(lia)) as [Hp' H0'].
      rewrite Nat.add_succ_r in Hp', H0'. auto.
    + rewrite Heq. split; [|exact Hsig].
      f_equal. f_equal. lia.
Qed.

(** More fuel does not change a run that finished. *)
Lemma wait_loop_fuel E h fuel :
  forall fuel' T w,
    (fuel <= fuel')%nat ->
    dco_connect_wait_loop E fuel h T w <> OutOfFuel ->
    dco_connect_wait_loop E fuel' h T w = dco_connect_wait_loop E fuel h T w.
Proof.
  induction fuel as [|fuel IH]; intros fuel' T w Hle Hfin.
  - now contradiction Hfin.
  - destruct fuel' as [|fuel']; [lia|].
    revert Hfin. cbn [dco_connect_wait_loop].
    destruct (0 <? T); [|reflexivity].
    run_monad.
    destruct (wait_reply E (w_waits w)) as [|err]; world_simpl;
      [reflexivity|].
    destruct (negb (err =? WAIT_TIMEOUT) && negb (err =? ERROR_IO_INCOMPLETE));
      [reflexivity|].
    world_simpl.
    match goal with |- context [negb (?s =? 0)] => destruct (negb (s =? 0)) end;
      [reflexivity|].
    intros Hfin. apply IH; [lia | exact Hfin].
Qed.

(** With [r] polls left in the budget, [r + 1] units of fuel suffice. *)
Lemma wait_loop_total E h r :
  forall fuel w,
    (r < fuel)%nat ->
    dco_connect_wait_loop E fuel h (dword (50 * Z.of_nat r)) w <> OutOfFuel.
Proof.
  induction r as [|r IH]; intros fuel w Hlt;
    (destruct fuel as [|fuel]; [lia|]).
  - change (dword (50 * Z.of_nat 0)) with 0.
    rewrite wait_loop_timeout. discriminate.
  - cbn [dco_connect_wait_loop].
    destruct (0 <? dword (50 * Z.of_nat (S r))); [|run_monad; discriminate].
    rewrite budget_step.
    replace (Z.of_nat (S r) - 1) with (Z.of_nat r) by lia.
    run_monad.
    destruct (wait_reply E (w_waits w)) as [|err]; world_simpl;
      [discriminate|].
    destruct (negb (err =? WAIT_TIMEOUT) && negb (err =? ERROR_IO_INCOMPLETE));
      [discriminate|].
    world_simpl.
    match goal with |- context [negb (?s =? 0)] => destruct (negb (s =? 0)) end;
      [discriminate|].
    apply IH. lia.
Qed.

(** The wait loop never releases the handle and never ends the process;
    it returns 0 or -1. *)
Lemma wait_loop_frame E h fuel :
  forall T w,
    match dco_connect_wait_loop E fuel h T w with
    | Returned r w' =>
        closes w' = closes w /\ w_ioctls w' = w_ioctls w /\ (r = 0 \/ r = -1)
    | Exited _ => False
    | OutOfFuel => True
    end.
Proof.
  induction fuel as [|fuel IH]; intros T w; [exact I|].
  cbn [dco_connect_wait_loop].
  destruct (0 <? T).
  - run_monad.
    destruct (wait_reply E (w_waits w)) as [|err]; world_simpl.
    + unfold closes. world_simpl.
      rewrite filter_app. cbn. rewrite app_nil_r. auto.
    + destruct (negb (err =? WAIT_TIMEOUT)
                && negb (err =? ERROR_IO_INCOMPLETE)).
      * unfold closes. world_simpl.
        rewrite !filter_app. cbn. rewrite !app_nil_r. auto.
      * world_simpl.
        match goal with
        | |- context [negb (?s =? 0)] => destruct (negb (s =? 0))
        end.
        -- unfold closes. world_simpl.
           rewrite !filter_app. cbn. rewrite !app_nil_r. auto.
        -- match goal with
           | |- context [dco_connect_wait_loop E fuel h ?T' ?w'] =>
               specialize (IH T' w');
               destruct (dco_connect_wait_loop E fuel h T' w')
                 as [r w''| |]; auto
           end.
           destruct IH as (Hc & Hi & Hr). split; [|split]; auto.
           rewrite Hc. unfold closes. world_simpl.
           rewrite !filter_app. cbn. rewrite !app_nil_r. reflexivity.
  - run_monad. unfold closes. world_simpl.
    rewrite !filter_app. cbn. rewrite !app_nil_r. auto.
Qed.

Lemma closes_polls h n :
  filter is_close (List.concat (repeat (poll_events h) n)) = [].
Proof.
  induction n as [|n IH]; [reflexivity|].
  cbn [repeat List.concat]. rewrite filter_app, IH. reflexivity.
Qed.

(** ** The descriptor and the request *)

(** When the descriptor is built, nothing has happened but the debug
    message. *)
Lemma peer_world L remoteaddr bind_local bind w peer w1 :
  dco_create_socket_peer L remoteaddr bind_local bind w = Returned peer w1 ->
  w1 = log (EvMsg D_DCO_DEBUG "%s" [AStr "dco_create_socket"]) w.
Proof.
  unfold dco_create_socket_peer, mbind, msg, ASSERT, ret. cbn [msg_exits].
  destruct (bind_local && is_null _); cbn [msg_exits]; [discriminate|].
  destruct (sa_family (ai_addr remoteaddr) =? AF_INET6).
  - destruct (if bind_local then _ else _); intros [= _ <-]; reflexivity.
  - destruct (sa_family (ai_addr remoteaddr) =? AF_INET); [|discriminate].
    destruct (if bind_local then _ else _); intros [= _ <-]; reflexivity.
Qed.

(** The second half of [dco_create_socket] when the request is pending:
    it waits, and releases the handle unless the wait returned 0. *)
Lemma connect_pending E fuel peer devname timeout w :
  ioctl_reply E (w_ioctls w) = WinErr ERROR_IO_PENDING ->
  dco_create_socket_connect E fuel peer devname timeout w =
  match dco_connect_wait_loop E fuel (Some (device_handle E devname))
          (dword (50 * poll_budget timeout)) (submitted E peer devname w) with
  | Returned r w' =>
      if negb (r =? 0)
      then Returned tt_closed (log (EvCloseHandle (device_handle E devname)) w')
      else Returned (tt_open E devname) w'
  | Exited w' => Exited w'
  | OutOfFuel => OutOfFuel
  end.
Proof.
  intros Hp.
  unfold dco_create_socket_connect, create_dco_handle, tun_open_device,
    dco_connect_wait, close_tun_handle, submitted.
  rewrite budget_start. run_monad. rewrite Hp. world_simpl.
  cbn [Z.eqb ERROR_IO_PENDING Pos.eqb negb].
  rewrite <- app_assoc. cbn [app].
  match goal with
  | |- match ?X with _ => _ end = match ?Y with _ => _ end =>
      change X with Y; destruct Y as [r w'| |]; auto
  end.
  destruct (negb (r =? 0)); reflexivity.
Qed.

(** A pending request that never completes, with no signal and no driver
    error, for any [int] timeout: the loop polls [poll_budget timeout]
    times, then reports the timeout, and the handle is released. *)
Lemma connect_never_completes L E fuel remoteaddr bind_local bind devname
  timeout peer w w1 :
  dco_create_socket_peer L remoteaddr bind_local bind w = Returned peer w1 ->
  ioctl_reply E (w_ioctls w) = WinErr ERROR_IO_PENDING ->
  w_signal w = 0 ->
  (forall n, still_pending (wait_reply E n)) ->
  (forall n, signal_env E n 0 = 0) ->
  poll_budget timeout < Z.of_nat fuel ->
  exists w',
    dco_create_socket L E fuel remoteaddr bind_local bind devname timeout w
    = Returned tt_closed w'
    /\ Z.of_nat (w_waits w') = Z.of_nat (w_waits w) + poll_budget timeout
    /\ w_signal w' = SIGUSR1
    /\ w_trace w' =
       w_trace (submitted E peer devname w1)
       ++ List.concat (repeat (poll_events (Some (device_handle E devname)))
                         (Z.to_nat (poll_budget timeout)))
       ++ [EvMsg M_NONFATAL "%s: dco connect timeout"
             [AStr "dco_connect_wait"];
           EvWriteSignal SIGUSR1;
           EvCloseHandle (device_handle E devname)]
    /\ closes w' = S (closes w).
Proof.
  intros Hpeer Hpend Hsig Hwait Hnosig Hfuel.
  pose proof (peer_world _ _ _ _ _ _ _ Hpeer) as Hw1.
  pose proof (poll_budget_range timeout) as Hb.
  set (n := Z.to_nat (poll_budget timeout)).
  set (h := device_handle E devname).
  unfold dco_create_socket, mbind at 1. rewrite Hpeer.
  rewrite connect_pending by (subst w1; exact Hpend).
  replace fuel with (n + S (fuel - n - 1))%nat by lia.
  destruct (wait_loop_idle_prefix E (Some h) n (poll_budget timeout)
              (S (fuel - n - 1)) (submitted E peer devname w1))
    as [Heq Hzero].
  - lia.
  - subst w1. exact Hsig.
  - intros j _. split; [apply Hwait | apply Hnosig].
  - fold h. rewrite Heq.
    replace (poll_budget timeout - Z.of_nat n) with 0 by lia.
    change (dword (50 * 0)) with 0.
    rewrite wait_loop_timeout. cbn [Z.eqb negb].
    eexists. split; [reflexivity|].
    unfold log. world_simpl.
    rewrite idle_polls_waits, idle_polls_trace.
    repeat split.
    + subst w1. cbn [submitted log w_waits]. lia.
    + rewrite <- !app_assoc. reflexivity.
    + unfold closes. world_simpl.
      rewrite !filter_app, closes_polls. subst w1.
      cbn [submitted log w_trace]. rewrite !filter_app. cbn.
      rewrite !app_nil_r, length_app. cbn. lia.
Qed.

(** C1 (amended).  For a timeout [t >= 0] with [20 * t < 2 ^ 31] and a
    pending new-peer request that never completes, is never cancelled and
    never reports a driver error, [dco_create_socket] polls exactly
    [t * 1000 / 50] times, then logs the timeout, sets the flag to
    [SIGUSR1], releases the handle once and returns the [tuntap] without
    handle.  Any fuel above the number of polls gives this run. *)
Theorem connect_timeout_exact L E fuel remoteaddr bind_local bind devname
  timeout peer w w1 :
  dco_create_socket_peer L remoteaddr bind_local bind w = Returned peer w1 ->
  0 <= timeout -> 20 * timeout < 2 ^ 31 ->
  ioctl_reply E (w_ioctls w) = WinErr ERROR_IO_PENDING ->
  w_signal w = 0 ->
  (forall n, still_pending (wait_reply E n)) ->
  (forall n, signal_env E n 0 = 0) ->
  timeout * 1000 / 50 < Z.of_nat fuel ->
  exists w',
    dco_create_socket L E fuel remoteaddr bind_local bind devname timeout w
    = Returned tt_closed w'
    /\ Z.of_nat (w_waits w') = Z.of_nat (w_waits w) + timeout * 1000 / 50
    /\ w_signal w' = SIGUSR1
    /\ w_trace w' =
       w_trace (submitted E peer devname w1)
       ++ List.concat (repeat (poll_events (Some (device_handle E devname)))
                         (Z.to_nat (timeout * 1000 / 50)))
       ++ [EvMsg M_NONFATAL "%s: dco connect timeout"
             [AStr "dco_connect_wait"];
           EvWriteSignal SIGUSR1;
           EvCloseHandle (device_handle E devname)]
    /\ closes w' = S (closes w).
Proof.
  intros Hpeer H0 Hsmall Hpend Hsig Hwait Hnosig Hfuel.
  rewrite <- (poll_budget_small timeout H0 Hsmall) in *.
  eapply connect_never_completes; eauto.
Qed.

(** The amended C1 at a five-second timeout: one hundred polls. *)
Lemma connect_timeout_exact_witness :
  exists w',
    dco_create_socket win_abi env_never 101 remote_udp_v4 false []
      "ovpn-dco" 5 world0 = Returned tt_closed w'
    /\ Z.of_nat (w_waits w') = 100.
Proof.
  destruct (connect_timeout_exact win_abi env_never 101 remote_udp_v4 false
              [] "ovpn-dco" 5
              (store 56 (le_bytes 4 0)
                 (store 28 (read_bytes sockaddr_v4 16)
                    (store 4 in4addr_any
                       (store 2 (le_bytes 2 0)
                          (store 0 (le_bytes 2 AF_INET) (ZeroMemory 60))))))
              world0
              (log (EvMsg D_DCO_DEBUG "%s" [AStr "dco_create_socket"]) world0))
    as (w' & Hrun & Hwaits & _).
  - reflexivity.
  - lia.
  - lia.
  - reflexivity.
  - reflexivity.
  - intros n. left. reflexivity.
  - intros n. reflexivity.
  - reflexivity.
  - exists w'. split; [exact Hrun | exact Hwaits].
Defined.

(** C1 as stated fails for large timeouts: [timeout * 1000] is computed in
    32 bits.  For 107374183 seconds the budget wraps to 600 ms and the
    loop gives up after 12 polls, not after 2147483660. *)
Lemma connect_timeout_wraps :
  exists w',
    dco_create_socket win_abi env_never 13 remote_udp_v4 false []
      "ovpn-dco" 107374183 world0 = Returned tt_closed w'
    /\ w_waits w' = 12%nat
    /\ w_signal w' = SIGUSR1
    /\ 107374183 * 1000 / 50 = 2147483660.
Proof.
  eexists. split; [vm_compute; reflexivity|].
  repeat split.
Qed.

(** The run up to poll [k] when the request is pending and the first [k]
    polls are idle. *)
Lemma connect_after_idle L E fuel remoteaddr bind_local bind devname
  timeout peer w w1 k :
  dco_create_socket_peer L remoteaddr bind_local bind w = Returned peer w1 ->
  ioctl_reply E (w_ioctls w) = WinErr ERROR_IO_PENDING ->
  w_signal w = 0 ->
  Z.of_nat k <= poll_budget timeout ->
  (forall j, (j < k)%nat ->
     still_pending (wait_reply E (w_waits w + j)) /\
     signal_env E (S (w_waits w + j)) 0 = 0) ->
  let h := device_handle E devname in
  let wk := idle_polls E (Some h) k (submitted E peer devname w1) in
  dco_create_socket L E (k + fuel) remoteaddr bind_local bind devname
    timeout w =
  match dco_connect_wait_loop E fuel (Some h)
          (dword (50 * (poll_budget timeout - Z.of_nat k))) wk with
  | Returned r w' =>
      if negb (r =? 0)
      then Returned tt_closed (log (EvCloseHandle h) w')
      else Returned (tt_open E devname) w'
  | Exited w' => Exited w'
  | OutOfFuel => OutOfFuel
  end
  /\ w_signal wk = 0
  /\ w_waits wk = (w_waits w + k)%nat
  /\ w_ioctls wk = S (w_ioctls w)
  /\ w_trace wk =
     w_trace (submitted E peer devname w1)
     ++ List.concat (repeat (poll_events (Some h)) k)
  /\ closes wk = closes w.
Proof.
  intros Hpeer Hpend Hsig Hk Hidle h wk.
  pose proof (peer_world _ _ _ _ _ _ _ Hpeer) as Hw1.
  pose proof (poll_budget_range timeout) as Hb.
  unfold dco_create_socket, mbind at 1. rewrite Hpeer.
  rewrite connect_pending by (subst w1; exact Hpend).
  destruct (wait_loop_idle_prefix E (Some h) k (poll_budget timeout) fuel
              (submitted E peer devname w1))
    as [Heq Hzero].
  - lia.
  - subst w1. exact Hsig.
  - intros j Hj. subst w1. cbn [submitted log w_waits]. auto.
  - fold h. rewrite Heq. fold wk.
    split; [reflexivity|]. split; [exact Hzero|].
    subst wk. rewrite idle_polls_waits, idle_polls_ioctls.
    unfold closes. rewrite idle_polls_trace.
    subst w1. cbn [submitted log w_waits w_ioctls w_trace].
    repeat split.
    rewrite !filter_app, closes_polls. cbn. now rewrite !app_nil_r.
Qed.

(** C6.  When the new-peer request succeeds at once, [dco_create_socket]
    returns the open handle without polling: whatever the fuel, the run
    consists of the debug message, the device open and the request; no
    wait is made and the cancellation flag is neither read nor written. *)
Theorem connect_immediate L E fuel remoteaddr bind_local bind devname
  timeout peer w w1 :
  dco_create_socket_peer L remoteaddr bind_local bind w = Returned peer w1 ->
  ioctl_reply E (w_ioctls w) = WinOk ->
  exists w',
    dco_create_socket L E fuel remoteaddr bind_local bind devname timeout w
    = Returned (tt_open E devname) w'
    /\ w_waits w' = w_waits w
    /\ w_signal w' = w_signal w
    /\ signal_accesses w' = signal_accesses w
    /\ w_trace w' =
       w_trace w
       ++ [EvMsg D_DCO_DEBUG "%s" [AStr "dco_create_socket"];
           EvOpenDevice devname (device_handle E devname);
           EvIoctl (Some (device_handle E devname)) OVPN_IOCTL_NEW_PEER
             peer true].
Proof.
  intros Hpeer Hok.
  pose proof (peer_world _ _ _ _ _ _ _ Hpeer) as Hw1.
  unfold dco_create_socket, mbind at 1. rewrite Hpeer.
  unfold dco_create_socket_connect, create_dco_handle, tun_open_device.
  run_monad. subst w1. unfold log. world_simpl. rewrite Hok. world_simpl.
  eexists. split; [reflexivity|].
  unfold signal_accesses. world_simpl.
  rewrite <- !app_assoc. cbn [app].
  repeat split.
  rewrite filter_app. cbn. now rewrite app_nil_r.
Qed.

(** C6 on the UDP example with a driver that answers at once, and no
    fuel at all. *)
Lemma connect_immediate_witness :
  exists w',
    dco_create_socket win_abi env_ok 0 remote_udp_v4 false [] "ovpn-dco" 5
      world0 = Returned (tt_open env_ok "ovpn-dco") w'
    /\ w_waits w' = 0%nat
    /\ signal_accesses w' = [].
Proof.
  destruct (connect_immediate win_abi env_ok 0 remote_udp_v4 false []
              "ovpn-dco" 5
              (store 56 (le_bytes 4 0)
                 (store 28 (read_bytes sockaddr_v4 16)
                    (store 4 in4addr_any
                       (store 2 (le_bytes 2 0)
                          (store 0 (le_bytes 2 AF_INET) (ZeroMemory 60))))))
              world0
              (log (EvMsg D_DCO_DEBUG "%s" [AStr "dco_create_socket"]) world0))
    as (w' & Hrun & Hwaits & _ & Hacc & _).
  - reflexivity.
  - reflexivity.
  - exists w'. repeat split; assumption.
Defined.

(** C4.  While the request is pending and polls remain in the budget,
    a flag found set at the check of a poll that is itself still pending
    ends the wait at that poll: no further wait is made, no message is
    logged, the flag keeps the value found, the handle is released once
    and the [tuntap] comes back without handle. *)
Theorem connect_cancel L E fuel remoteaddr bind_local bind devname timeout
  peer w w1 k :
  dco_create_socket_peer L remoteaddr bind_local bind w = Returned peer w1 ->
  ioctl_reply E (w_ioctls w) = WinErr ERROR_IO_PENDING ->
  w_signal w = 0 ->
  Z.of_nat k < poll_budget timeout ->
  (forall j, (j < k)%nat ->
     still_pending (wait_reply E (w_waits w + j)) /\
     signal_env E (S (w_waits w + j)) 0 = 0) ->
  still_pending (wait_reply E (w_waits w + k)) ->
  signal_env E (S (w_waits w + k)) 0 <> 0 ->
  (k < fuel)%nat ->
  exists w',
    dco_create_socket L E fuel remoteaddr bind_local bind devname timeout w
    = Returned tt_closed w'
    /\ w_waits w' = (w_waits w + k + 1)%nat
    /\ w_signal w' = signal_env E (S (w_waits w + k)) 0
    /\ w_trace w' =
       w_trace (submitted E peer devname w1)
       ++ List.concat (repeat (poll_events (Some (device_handle E devname))) k)
       ++ [EvWait (Some (device_handle E devname)) poll_interval_ms;
           EvGetSignal; EvReadSignal;
           EvCloseHandle (device_handle E devname)]
    /\ closes w' = S (closes w).
Proof.
  intros Hpeer Hpend Hsig Hk Hidle Hpk Hset Hfuel.
  pose proof (poll_budget_range timeout) as Hb.
  replace fuel with (k + S (fuel - k - 1))%nat by lia.
  destruct (connect_after_idle L E (S (fuel - k - 1)) remoteaddr bind_local
              bind devname timeout peer w w1 k Hpeer Hpend Hsig
              ltac:(lia) Hidle)
    as (Hrun & Hz & Hwaits & _ & Htrace & Hcl).
  rewrite Hrun.
  rewrite wait_loop_cancel.
  - cbn [Z.eqb negb]. eexists. split; [reflexivity|].
    unfold closes, log in *. world_simpl.
    rewrite Hz, Hwaits, Htrace.
    repeat split.
    + lia.
    + rewrite <- !app_assoc. reflexivity.
    + rewrite Htrace, filter_app, length_app in Hcl.
      rewrite !filter_app, !length_app. cbn [filter is_close app length]. lia.
  - apply budget_positive. lia.
  - rewrite Hwaits. exact Hpk.
  - rewrite Hwaits, Hz. exact Hset.
Qed.

(** C4 with one second of budget: two idle polls, then [SIGTERM] is found
    at the third check. *)
Lemma connect_cancel_witness :
  exists w',
    dco_create_socket win_abi env_sigterm 50 remote_udp_v4 false []
      "ovpn-dco" 1 world0 = Returned tt_closed w'
    /\ w_waits w' = 3%nat
    /\ w_signal w' = 15
    /\ closes w' = 1%nat.
Proof.
  destruct (connect_cancel win_abi env_sigterm 50 remote_udp_v4 false []
              "ovpn-dco" 1
              (store 56 (le_bytes 4 0)
                 (store 28 (read_bytes sockaddr_v4 16)
                    (store 4 in4addr_any
                       (store 2 (le_bytes 2 0)
                          (store 0 (le_bytes 2 AF_INET) (ZeroMemory 60))))))
              world0
              (log (EvMsg D_DCO_DEBUG "%s" [AStr "dco_create_socket"]) world0)
              2%nat)
    as (w' & Hrun & Hwaits & Hsig & _ & Hcl).
  - reflexivity.
  - reflexivity.
  - reflexivity.
  - vm_compute. reflexivity.
  - intros j Hj. split; [left; reflexivity|].
    destruct j as [|[|j]]; [reflexivity | reflexivity | lia].
  - left. reflexivity.
  - vm_compute. discriminate.
  - lia.
  - exists w'. repeat split; assumption.
Defined.

(** C5.  In the wait loop a poll that reports [WAIT_TIMEOUT] or
    [ERROR_IO_INCOMPLETE] is no error: with no signal the loop goes on to
    its next test, having logged nothing and left the flag alone.  Any
    other error code of a poll makes [dco_create_socket] log it at
    [M_NONFATAL], set the flag to [SIGUSR1], release the handle once and
    return the [tuntap] without handle. *)
Theorem wait_error_classes L E :
  (forall fuel h T wl,
      0 < T ->
      still_pending (wait_reply E (w_waits wl)) ->
      signal_env E (S (w_waits wl)) (w_signal wl) = 0 ->
      dco_connect_wait_loop E (S fuel) h T wl =
      dco_connect_wait_loop E fuel h (dword (T - poll_interval_ms))
        (idle_poll E h wl))
  /\
  (forall fuel remoteaddr bind_local bind devname timeout peer w w1 k err,
      dco_create_socket_peer L remoteaddr bind_local bind w
      = Returned peer w1 ->
      ioctl_reply E (w_ioctls w) = WinErr ERROR_IO_PENDING ->
      w_signal w = 0 ->
      Z.of_nat k < poll_budget timeout ->
      (forall j, (j < k)%nat ->
         still_pending (wait_reply E (w_waits w + j)) /\
         signal_env E (S (w_waits w + j)) 0 = 0) ->
      wait_reply E (w_waits w + k) = WinErr err ->
      err <> WAIT_TIMEOUT -> err <> ERROR_IO_INCOMPLETE ->
      (k < fuel)%nat ->
      exists w',
        dco_create_socket L E fuel remoteaddr bind_local bind devname
          timeout w = Returned tt_closed w'
        /\ w_waits w' = (w_waits w + k + 1)%nat
        /\ w_signal w' = SIGUSR1
        /\ w_trace w' =
           w_trace (submitted E peer devname w1)
           ++ List.concat
                (repeat (poll_events (Some (device_handle E devname))) k)
           ++ [EvWait (Some (device_handle E devname)) poll_interval_ms;
               EvMsg M_NONFATAL "%s: %s"
                 [AStr "dco_connect_wait"; AStrerror err];
               EvWriteSignal SIGUSR1;
               EvCloseHandle (device_handle E devname)]
        /\ closes w' = S (closes w)).
Proof.
  split.
  - intros. now apply wait_loop_idle.
  - intros fuel remoteaddr bind_local bind devname timeout peer w w1 k err
      Hpeer Hpend Hsig Hk Hidle Herr Hne1 Hne2 Hfuel.
    pose proof (poll_budget_range timeout) as Hb.
    replace fuel with (k + S (fuel - k - 1))%nat by lia.
    destruct (connect_after_idle L E (S (fuel - k - 1)) remoteaddr bind_local
                bind devname timeout peer w w1 k Hpeer Hpend Hsig
                ltac:(lia) Hidle)
      as (Hrun & Hz & Hwaits & _ & Htrace & Hcl).
    rewrite Hrun.
    rewrite (wait_loop_error _ _ _ _ _ err).
    + cbn [Z.eqb negb]. eexists. split; [reflexivity|].
      unfold closes, log in *. world_simpl.
      rewrite Hwaits, Htrace.
      repeat split.
      * lia.
      * rewrite <- !app_assoc. reflexivity.
      * rewrite Htrace, filter_app, length_app in Hcl.
        rewrite !filter_app, !length_app.
        cbn [filter is_close app length]. lia.
    + apply budget_positive. lia.
    + rewrite Hwaits. exact Herr.
    + exact Hne1.
    + exact Hne2.
Qed.

(** C5 on two runs: an idle poll of the never-completing driver, and a
    connection refused at the third poll. *)
Lemma wait_error_classes_witness :
  dco_connect_wait_loop env_never 3 (Some 1000) 100 world0 =
  dco_connect_wait_loop env_never 2 (Some 1000) 50
    (idle_poll env_never (Some 1000) world0)
  /\
  exists w',
    dco_create_socket win_abi env_refused 50 remote_udp_v4 false []
      "ovpn-dco" 1 world0 = Returned tt_closed w'
    /\ w_waits w' = 3%nat
    /\ w_signal w' = SIGUSR1
    /\ closes w' = 1%nat.
Proof.
  destruct (wait_error_classes win_abi env_never) as [Hidle _].
  destruct (wait_error_classes win_abi env_refused) as [_ Herr].
  split.
  - apply (Hidle 2%nat (Some 1000) 100 world0).
    + lia.
    + left. reflexivity.
    + reflexivity.
  - destruct (Herr 50%nat remote_udp_v4 false [] "ovpn-dco" 1
              (store 56 (le_bytes 4 0)
                 (store 28 (read_bytes sockaddr_v4 16)
                    (store 4 in4addr_any
                       (store 2 (le_bytes 2 0)
                          (store 0 (le_bytes 2 AF_INET) (ZeroMemory 60))))))
              world0
              (log (EvMsg D_DCO_DEBUG "%s" [AStr "dco_create_socket"]) world0)
              2%nat 1225)
      as (w' & Hrun & Hwaits & Hsig & _ & Hcl).
    + reflexivity.
    + reflexivity.
    + reflexivity.
    + vm_compute. reflexivity.
    + intros j Hj. split; [|reflexivity].
      destruct j as [|[|j]]; [left; reflexivity | left; reflexivity | lia].
    + reflexivity.
    + discriminate.
    + discriminate.
    + lia.
    + exists w'. repeat split; assumption.
Defined.

(** Building the descriptor releases nothing and calls no driver, however
    it ends. *)
Lemma peer_frame L remoteaddr bind_local bind w :
  match dco_create_socket_peer L remoteaddr bind_local bind w with
  | Returned _ w' | Exited w' =>
      closes w' = closes w /\ w_ioctls w' = w_ioctls w
      /\ driver_calls (w_trace w') = driver_calls (w_trace w)
  | OutOfFuel => False
  end.
Proof.
  assert (Hlog : forall e,
             is_close e = false -> is_driver_call e = false ->
             closes (log e w) = closes w
             /\ w_ioctls (log e w) = w_ioctls w
             /\ driver_calls (w_trace (log e w)) = driver_calls (w_trace w)).
  { intros e Hc Hd. unfold closes, driver_calls, log. world_simpl.
    rewrite !filter_app. cbn [filter]. rewrite Hc, Hd.
    now rewrite !app_nil_r. }
  assert (Hlog2 : forall e1 e2,
             is_close e1 = false -> is_driver_call e1 = false ->
             is_close e2 = false -> is_driver_call e2 = false ->
             closes (log e2 (log e1 w)) = closes w
             /\ w_ioctls (log e2 (log e1 w)) = w_ioctls w
             /\ driver_calls (w_trace (log e2 (log e1 w)))
                = driver_calls (w_trace w)).
  { intros e1 e2 Hc1 Hd1 Hc2 Hd2. unfold closes, driver_calls, log.
    world_simpl. rewrite !filter_app. cbn [filter].
    rewrite Hc1, Hd1, Hc2, Hd2. now rewrite !app_nil_r. }
  unfold dco_create_socket_peer, mbind, msg, ASSERT, ret. cbn [msg_exits].
  destruct (bind_local && is_null _); cbn [msg_exits].
  - now apply Hlog2.
  - destruct (sa_family (ai_addr remoteaddr) =? AF_INET6).
    + destruct (if bind_local then _ else _); now apply Hlog.
    + destruct (sa_family (ai_addr remoteaddr) =? AF_INET).
      * destruct (if bind_local then _ else _); now apply Hlog.
      * now apply Hlog2.
Qed.





(** ** Descriptors as byte blocks *)

Lemma slice_ZeroMemory off n m :
  (off + n <= m)%nat -> slice off n (ZeroMemory m) = ZeroMemory n.
Proof.
  intros H. apply (nth_ext _ _ 0 0).
  - rewrite slice_length, ZeroMemory_length; auto.
    now rewrite ZeroMemory_length.
  - intros i Hi. rewrite slice_length in Hi by now rewrite ZeroMemory_length.
    now rewrite nth_slice, !nth_ZeroMemory.
Qed.

(** A write inside a region is a write into the region. *)
Lemma slice_store_within base n o data blk :
  (o + length data <= n)%nat ->
  (base + n <= length blk)%nat ->
  slice base n (store (base + o) data blk) = store o data (slice base n blk).
Proof.
  intros Hfit Hin. apply (nth_ext _ _ 0 0).
  - rewrite store_length, !slice_length; auto. now rewrite store_length.
  - intros i Hi. rewrite slice_length in Hi by now rewrite store_length.
    rewrite nth_slice by assumption.
    rewrite !nth_store by (rewrite ?slice_length; lia).
    rewrite nth_slice by assumption.
    unfold in_range.
    destruct (Nat.leb_spec (base + o) (base + i));
      destruct (Nat.leb_spec o i);
      destruct (Nat.ltb_spec (base + i) (base + o + length data));
      destruct (Nat.ltb_spec i (o + length data));
      cbn [andb]; try lia; try reflexivity.
    f_equal. lia.
Qed.

(** The scan picks the address of the first candidate of the family. *)
Lemma bind_scan_first family bind :
  bind_scan family bind None =
  option_map ai_addr (find (fun b => ai_family b =? family) bind).
Proof.
  induction bind as [|b next IH]; [reflexivity|].
  cbn [bind_scan find].
  destruct (ai_family b =? family); [|exact IH].
  destruct next; reflexivity.
Qed.

Lemma sizeof_sockaddr_cases family :
  sizeof_sockaddr family = sizeof_SOCKADDR_IN
  \/ sizeof_sockaddr family = sizeof_SOCKADDR_IN6.
Proof. unfold sizeof_sockaddr. destruct (family =? AF_INET6); auto. Qed.

(** C7.  For every remote endpoint and every list of local candidates:
    with binding requested and no candidate of the remote's family,
    [dco_create_socket] ends with the fatal message that names the
    family, before the device is opened or any driver call is made; with
    binding requested and a remote of family [AF_INET] or [AF_INET6],
    the [Local] endpoint of the descriptor is the socket address of the
    first candidate of that family; without binding it is the wildcard
    endpoint of the remote's family (any-address, port 0). *)
Theorem local_endpoint_selection L remoteaddr bind w :
  let family := sa_family (ai_addr remoteaddr) in
  let first := find (fun b => ai_family b =? family) bind in
  let w1 := log (EvMsg D_DCO_DEBUG "%s" [AStr "dco_create_socket"]) w in
  (first = None ->
   forall E fuel devname timeout,
     dco_create_socket L E fuel remoteaddr true bind devname timeout w
     = Exited
         (log (EvMsg M_FATAL
                 "DCO: Socket bind failed: Address to bind lacks %s record"
                 [AFamilyName family]) w1)
     /\ driver_calls (w_trace w ++
          [EvMsg D_DCO_DEBUG "%s" [AStr "dco_create_socket"];
           EvMsg M_FATAL
             "DCO: Socket bind failed: Address to bind lacks %s record"
             [AFamilyName family]])
        = driver_calls (w_trace w))
  /\
  (forall c,
     first = Some c ->
     family = AF_INET \/ family = AF_INET6 ->
     peer_layout_ok L ->
     exists peer,
       dco_create_socket_peer L remoteaddr true bind w = Returned peer w1
       /\ slice (off_Local L) (sizeof_sockaddr family) peer
          = read_bytes (ai_addr c) (sizeof_sockaddr family))
  /\
  (family = AF_INET \/ family = AF_INET6 ->
   peer_layout_ok L ->
   exists peer,
     dco_create_socket_peer L remoteaddr false bind w = Returned peer w1
     /\ slice (off_Local L) (sizeof_sockaddr family) peer = wildcard family).
Proof.
  intros family first w1. subst first.
  split; [|split].
  - intros Hnone E fuel devname timeout. split.
    + unfold dco_create_socket, dco_create_socket_peer, mbind, msg.
      cbn [msg_exits andb]. fold family.
      rewrite bind_scan_first, Hnone. reflexivity.
    + unfold driver_calls. rewrite filter_app. cbn. now rewrite app_nil_r.
  - intros c Hc Hfam (HL & HR & HP & HLR & HLP & HRP).
    unfold dco_create_socket_peer, mbind, msg, ret.
    cbn [msg_exits andb]. fold family.
    rewrite bind_scan_first, Hc. cbn [option_map is_null].
    unfold sizeof_sockaddr, sizeof_SOCKADDR_IN6, sizeof_SOCKADDR_IN in *.
    destruct Hfam as [Hf | Hf]; rewrite Hf; cbn [Z.eqb AF_INET AF_INET6 Pos.eqb];
      eexists; (split; [reflexivity|]);
      (apply slice_store_same;
       [now rewrite read_bytes_length
       | rewrite !store_length; destruct (_ || _);
         rewrite store_length, ZeroMemory_length; lia]).
  - intros Hfam (HL & HR & HP & HLR & HLP & HRP).
    unfold dco_create_socket_peer, mbind, msg, ret.
    cbn [msg_exits andb]. fold family.
    unfold sizeof_sockaddr, wildcard, disjoint,
      sizeof_SOCKADDR_IN6, sizeof_SOCKADDR_IN in *.
    match goal with
    | |- context [if ?c then store ?o ?a ?z else store ?o ?b ?z] =>
        set (peer0 := if c then store o a z else store o b z)
    end.
    assert (Hlen : length peer0 = sizeof_OVPN_NEW_PEER L).
    { subst peer0. destruct (_ || _);
        now rewrite store_length, ZeroMemory_length. }
    assert (Hzero : forall n,
               (n <= 28)%nat ->
               slice (off_Local L) n peer0 = ZeroMemory n).
    { intros n Hn. subst peer0. destruct (_ || _);
        (rewrite slice_store_other
           by (rewrite le_bytes_length; lia));
        apply slice_ZeroMemory; lia. }
    destruct Hfam as [Hf | Hf]; rewrite Hf; cbn [Z.eqb AF_INET AF_INET6 Pos.eqb];
      eexists; (split; [reflexivity|]).
    + unfold off_sin_family, off_sin_port, off_sin_addr.
      rewrite !slice_store_within
        by (rewrite ?store_length, ?Hlen; cbn; lia).
      rewrite slice_store_other by (rewrite read_bytes_length; lia).
      rewrite Hzero by lia. reflexivity.
    + unfold off_sin6_family, off_sin6_port, off_sin6_addr.
      rewrite !slice_store_within
        by (rewrite ?store_length, ?Hlen; cbn; lia).
      rewrite slice_store_other by (rewrite read_bytes_length; lia).
      rewrite Hzero by lia. reflexivity.
Qed.

Lemma win_peer_layout_ok : peer_layout_ok win_abi.
Proof.
  unfold peer_layout_ok, disjoint, sizeof_SOCKADDR_IN6. cbn. lia.
Qed.

(** C7 on the IPv4 remote 203.0.113.5: an IPv6-only candidate list is
    refused before any driver call, the list with an IPv6 and an IPv4
    candidate yields the IPv4 one, and no binding yields 0.0.0.0:0. *)
Lemma local_endpoint_selection_witness :
  dco_create_socket win_abi env_ok 50 remote_udp_v4 true [local_v6]
    "ovpn-dco" 5 world0
  = Exited
      {| w_signal := 0; w_last_error := 0; w_ioctls := 0; w_waits := 0;
         w_trace :=
           [EvMsg D_DCO_DEBUG "%s" [AStr "dco_create_socket"];
            EvMsg M_FATAL
              "DCO: Socket bind failed: Address to bind lacks %s record"
              [AFamilyName AF_INET]] |}
  /\ (exists peer,
        dco_create_socket_peer win_abi remote_udp_v4 true
          [local_v6; local_v4] world0
        = Returned peer
            (log (EvMsg D_DCO_DEBUG "%s" [AStr "dco_create_socket"]) world0)
        /\ slice 0 16 peer = mem_bytes sockaddr_local_v4)
  /\ (exists peer,
        dco_create_socket_peer win_abi remote_udp_v4 false
          [local_v6; local_v4] world0
        = Returned peer
            (log (EvMsg D_DCO_DEBUG "%s" [AStr "dco_create_socket"]) world0)
        /\ slice 0 16 peer = [2; 0; 0; 0; 0; 0; 0; 0; 0; 0; 0; 0; 0; 0; 0; 0]).
Proof.
  destruct (local_endpoint_selection win_abi remote_udp_v4 [local_v6] world0)
    as (Hnone & _ & _).
  destruct (local_endpoint_selection win_abi remote_udp_v4
              [local_v6; local_v4] world0)
    as (_ & Hfirst & Hwild).
  split; [|split].
  - apply (Hnone eq_refl env_ok 50%nat "ovpn-dco" 5).
  - apply (Hfirst local_v4 eq_refl (or_introl eq_refl) win_peer_layout_ok).
  - apply (Hwild (or_introl eq_refl) win_peer_layout_ok).
Defined.

(** ** Keepalive and key rotation *)

(** C8.  [ovpn_set_peer] submits one [OVPN_IOCTL_SET_PEER] request whose
    descriptor holds the interval and the timeout as they were passed (a
    zero timeout is four zero bytes), and returns 0 or, when the driver
    fails, -1 after a warning.  It issues no other driver call, so none
    that installs or swaps keys, it leaves the cancellation flag alone
    and never ends the process. *)
Theorem set_peer_frame L E dco peerid keepalive_interval keepalive_timeout w :
  set_peer_layout_ok L ->
  exists data w',
    ovpn_set_peer L E dco peerid keepalive_interval keepalive_timeout w
    = Returned (if win_ok (ioctl_reply E (w_ioctls w)) then 0 else -1) w'
    /\ slice (off_KeepaliveInterval L) 4 data = le_bytes 4 keepalive_interval
    /\ slice (off_KeepaliveTimeout L) 4 data = le_bytes 4 keepalive_timeout
    /\ (0 <= keepalive_interval < 2 ^ 32 ->
        le_decode (slice (off_KeepaliveInterval L) 4 data)
        = keepalive_interval)
    /\ (0 <= keepalive_timeout < 2 ^ 32 ->
        le_decode (slice (off_KeepaliveTimeout L) 4 data)
        = keepalive_timeout)
    /\ (keepalive_timeout = 0 ->
        slice (off_KeepaliveTimeout L) 4 data = [0; 0; 0; 0])
    /\ w_trace w' =
       w_trace w
       ++ [EvMsg D_DCO_DEBUG "%s: peer-id %d, keepalive %d/%d"
             [AStr "ovpn_set_peer"; ANum peerid; ANum keepalive_interval;
              ANum keepalive_timeout];
           EvIoctl (hand (dco_tt dco)) OVPN_IOCTL_SET_PEER data false]
       ++ match ioctl_reply E (w_ioctls w) with
          | WinOk => []
          | WinErr err =>
              [EvMsg M_WARN
                 "DeviceIoControl(OVPN_IOCTL_SET_PEER) failed with code %lu"
                 [ANum err]]
          end
    /\ key_requests w' = key_requests w
    /\ w_signal w' = w_signal w
    /\ closes w' = closes w.
Proof.
  intros (HI & HT & Hdis). unfold disjoint in Hdis.
  set (peer0 := uninitialised E (sizeof_OVPN_SET_PEER L)).
  assert (Hlen : length peer0 = sizeof_OVPN_SET_PEER L).
  { subst peer0. unfold uninitialised. now rewrite length_map, length_seq. }
  set (data := store (off_KeepaliveTimeout L) (le_bytes 4 keepalive_timeout)
                 (store (off_KeepaliveInterval L)
                    (le_bytes 4 keepalive_interval) peer0)).
  assert (HsI : slice (off_KeepaliveInterval L) 4 data
                = le_bytes 4 keepalive_interval).
  { subst data. rewrite slice_store_other by (rewrite le_bytes_length; lia).
    apply slice_store_same; [now rewrite le_bytes_length|].
    rewrite Hlen. lia. }
  assert (HsT : slice (off_KeepaliveTimeout L) 4 data
                = le_bytes 4 keepalive_timeout).
  { subst data. apply slice_store_same; [now rewrite le_bytes_length|].
    rewrite store_length, Hlen. lia. }
  exists data.
  unfold ovpn_set_peer, ovpn_set_peer_data. fold peer0. fold data.
  run_monad.
  destruct (ioctl_reply E (w_ioctls w)) as [|err]; world_simpl;
    (eexists; split; [reflexivity|]);
    unfold key_requests, closes; world_simpl;
    rewrite HsI, HsT, !le_decode_le_bytes;
    rewrite <- ?app_assoc; cbn [app];
    repeat split;
    try (intros Hr; apply Z.mod_small; cbn; lia);
    try (intros ->; reflexivity);
    try (rewrite !filter_app; cbn; now rewrite !app_nil_r).
Qed.

Lemma win_set_peer_layout_ok : set_peer_layout_ok win_abi.
Proof. unfold set_peer_layout_ok, disjoint. cbn. lia. Qed.

(** C8 on a refused update of interval 10 and timeout 0: the warning, -1,
    and no key request. *)
Lemma set_peer_frame_witness :
  exists data w',
    ovpn_set_peer win_abi env_denied dco0 7 10 0 world0 = Returned (-1) w'
    /\ slice 0 4 data = [10; 0; 0; 0]
    /\ slice 4 4 data = [0; 0; 0; 0]
    /\ key_requests w' = [].
Proof.
  destruct (set_peer_frame win_abi env_denied dco0 7 10 0 world0
              win_set_peer_layout_ok)
    as (data & w' & Hrun & HsI & HsT & _ & _ & _ & _ & Hkeys & _).
  exists data, w'. repeat split; assumption.
Defined.

(** C9.  Every call of [dco_swap_keys] issues exactly one driver request,
    [OVPN_IOCTL_SWAP_KEYS] with no input buffer, and succeeds exactly when
    the driver accepts that request: what the caller sees depends on the
    reply to the call's own request alone, in whatever world the call is
    made.  So of two calls in sequence the second issues the same request
    and succeeds or fails by its own reply; nothing is carried from one
    call to the next, the context is only read. *)
Theorem swap_keys_independent E dco :
  (forall peer_id w,
      exists w',
        dco_swap_keys E dco peer_id w
        = (if win_ok (ioctl_reply E (w_ioctls w))
           then Returned 0 w' else Exited w')
        /\ driver_calls (w_trace w') =
           driver_calls (w_trace w)
           ++ [EvIoctl (hand (dco_tt dco)) OVPN_IOCTL_SWAP_KEYS [] false]
        /\ w_ioctls w' = S (w_ioctls w)
        /\ w_signal w' = w_signal w)
  /\
  (forall peer_id w1 w2,
      ioctl_reply E (w_ioctls w1) = ioctl_reply E (w_ioctls w2) ->
      status (dco_swap_keys E dco peer_id w1)
      = status (dco_swap_keys E dco peer_id w2))
  /\
  (forall peer_id w w1,
      dco_swap_keys E dco peer_id w = Returned 0 w1 ->
      exists w2,
        dco_swap_keys E dco peer_id w1
        = (if win_ok (ioctl_reply E (S (w_ioctls w)))
           then Returned 0 w2 else Exited w2)
        /\ driver_calls (w_trace w2) =
           driver_calls (w_trace w)
           ++ [EvIoctl (hand (dco_tt dco)) OVPN_IOCTL_SWAP_KEYS [] false;
               EvIoctl (hand (dco_tt dco)) OVPN_IOCTL_SWAP_KEYS [] false]).
Proof.
  assert (Hone : forall peer_id w,
             exists w',
               dco_swap_keys E dco peer_id w
               = (if win_ok (ioctl_reply E (w_ioctls w))
                  then Returned 0 w' else Exited w')
               /\ driver_calls (w_trace w') =
                  driver_calls (w_trace w)
                  ++ [EvIoctl (hand (dco_tt dco)) OVPN_IOCTL_SWAP_KEYS []
                        false]
               /\ w_ioctls w' = S (w_ioctls w)
               /\ w_signal w' = w_signal w).
  { intros peer_id w. unfold dco_swap_keys. run_monad.
    destruct (ioctl_reply E (w_ioctls w)) as [|err]; world_simpl;
      (eexists; split; [reflexivity|]);
      unfold driver_calls; world_simpl;
      rewrite !filter_app; cbn; rewrite ?app_nil_r; auto. }
  split; [exact Hone | split].
  - intros peer_id w1 w2 Heq.
    destruct (Hone peer_id w1) as (w1' & H1 & _).
    destruct (Hone peer_id w2) as (w2' & H2 & _).
    rewrite H1, H2, Heq.
    destruct (win_ok (ioctl_reply E (w_ioctls w2))); reflexivity.
  - intros peer_id w w1 Hfirst.
    destruct (Hone peer_id w) as (w' & H1 & Hd1 & Hi1 & _).
    rewrite H1 in Hfirst.
    destruct (win_ok (ioctl_reply E (w_ioctls w))); [|discriminate].
    injection Hfirst as <-.
    destruct (Hone peer_id w') as (w2 & H2 & Hd2 & _).
    exists w2. rewrite H2, Hi1. split; [reflexivity|].
    rewrite Hd2, Hd1, <- app_assoc. reflexivity.
Qed.

(** C9 on two calls answered with success. *)
Lemma swap_keys_independent_witness :
  exists w1 w2,
    dco_swap_keys env_ok dco0 7 world0 = Returned 0 w1
    /\ dco_swap_keys env_ok dco0 7 w1 = Returned 0 w2
    /\ driver_calls (w_trace w2) =
       [EvIoctl (Some 1000) OVPN_IOCTL_SWAP_KEYS [] false;
        EvIoctl (Some 1000) OVPN_IOCTL_SWAP_KEYS [] false].
Proof.
  destruct (swap_keys_independent env_ok dco0) as (_ & _ & Hseq).
  destruct (Hseq 7 world0
              {| w_signal := 0; w_last_error := 0; w_ioctls := 1;
                 w_waits := 0;
                 w_trace :=
                   [EvMsg D_DCO_DEBUG "%s: peer-id %d"
                      [AStr "dco_swap_keys"; ANum 7];
                    EvIoctl (Some 1000) OVPN_IOCTL_SWAP_KEYS [] false] |}
              eq_refl)
    as (w2 & Hrun & Hcalls).
  eexists. exists w2. split; [reflexivity|]. split; assumption.
Defined.

(** ** Zero-initialised descriptors *)




Lemma win_crypto_layout_ok : crypto_layout_ok win_abi.
Proof. unfold crypto_layout_ok. cbn. lia. Qed.



(** ** Key installation *)

Lemma int32_small z : 0 <= z < 2 ^ 31 -> int32 (z mod 256 ^ Z.of_nat 4) = z.
Proof.
  intros Hz. change (256 ^ Z.of_nat 4) with (2 ^ 32).
  rewrite Z.mod_small by lia.
  unfold int32. rewrite Z.mod_small by lia. lia.
Qed.

(** A write at the start of a zero block: the data, then zeros. *)
Lemma store_prefix_zero data :
  forall n,
    (length data <= n)%nat ->
    store 0 data (ZeroMemory n) = data ++ repeat 0 (n - length data)%nat.
Proof.
  unfold ZeroMemory.
  induction data as [|d data IH]; intros n Hn.
  - cbn [length app]. rewrite Nat.sub_0_r. destruct n; reflexivity.
  - destruct n as [|n]; [cbn in Hn; lia|].
    cbn [repeat store length app Nat.sub]. f_equal.
    apply IH. cbn in Hn. lia.
Qed.

(** A write at the start of a region is a write into the region. *)
Lemma slice_store_at base n data blk :
  (length data <= n)%nat ->
  (base + n <= length blk)%nat ->
  slice base n (store base data blk) = store 0 data (slice base n blk).
Proof.
  intros Hfit Hin.
  rewrite <- (slice_store_within base n 0 data blk) by lia.
  now rewrite Nat.add_0_r.
Qed.

(** The two key fields of the descriptor of [dco_new_key]: whole, they
    hold the [key_len] bytes read at the key pointer and zeros behind
    them. *)
Lemma new_key_key_fields L E peerid keyid slot encrypt_key encrypt_iv
  decrypt_key decrypt_iv ciphername :
  crypto_layout_ok L ->
  (cipher_kt_key_size E ciphername <= sizeof_Key L)%nat ->
  let key_len := cipher_kt_key_size E ciphername in
  let crypto_data :=
    dco_new_key_data L E peerid keyid slot encrypt_key encrypt_iv
      decrypt_key decrypt_iv ciphername in
  slice (off_Encrypt L + off_Key L) (sizeof_Key L) crypto_data
  = read_bytes encrypt_key key_len ++ repeat 0 (sizeof_Key L - key_len)%nat
  /\ slice (off_Decrypt L + off_Key L) (sizeof_Key L) crypto_data
     = read_bytes decrypt_key key_len
       ++ repeat 0 (sizeof_Key L - key_len)%nat.
Proof.
  intros (H1 & H2 & H3 & H4 & H5 & H6 & H7 & H8) Hcap key_len crypto_data.
  subst crypto_data. unfold dco_new_key_data. fold key_len.
  split.
  - rewrite !slice_store_other
      by (rewrite ?le_bytes_length, ?read_bytes_length; lia).
    rewrite slice_store_at
      by (rewrite ?read_bytes_length, ?store_length, ?ZeroMemory_length; lia).
    rewrite !slice_store_other
      by (rewrite ?le_bytes_length, ?read_bytes_length; lia).
    rewrite slice_ZeroMemory by lia.
    rewrite store_prefix_zero by (rewrite read_bytes_length; lia).
    now rewrite read_bytes_length.
  - rewrite !slice_store_other
      by (rewrite ?le_bytes_length, ?read_bytes_length; lia).
    rewrite slice_store_at
      by (rewrite ?read_bytes_length, ?store_length, ?ZeroMemory_length; lia).
    rewrite !slice_store_other
      by (rewrite ?le_bytes_length, ?read_bytes_length; lia).
    rewrite slice_ZeroMemory by lia.
    rewrite store_prefix_zero by (rewrite read_bytes_length; lia).
    now rewrite read_bytes_length.
Qed.

(** C2 (amended).  [dco_new_key] is not told how long the key buffers
    are.  For a cipher whose key length [key_len] fits the key field of
    the descriptor, it copies exactly [key_len] bytes starting at each
    key pointer: the key field holds those bytes and zeros behind them,
    and nothing else of a key buffer, nor anything behind it, has any
    influence on the descriptor.  On a buffer that holds at least
    [key_len] bytes the bytes copied are the first [key_len] bytes of the
    buffer.  No key length is checked: whenever the cipher code is
    positive the [OVPN_IOCTL_NEW_KEY] request is issued with the
    descriptor, and the only fatal message that can be logged is the one
    for a failed request. *)
Theorem new_key_copies_key_len L E dco peerid keyid slot encrypt_key
  encrypt_iv decrypt_key decrypt_iv ciphername w :
  crypto_layout_ok L ->
  (cipher_kt_key_size E ciphername <= sizeof_Key L)%nat ->
  0 < dco_get_cipher E ciphername < 2 ^ 31 ->
  let key_len := cipher_kt_key_size E ciphername in
  let crypto_data :=
    dco_new_key_data L E peerid keyid slot encrypt_key encrypt_iv
      decrypt_key decrypt_iv ciphername in
  slice (off_Encrypt L + off_Key L) (sizeof_Key L) crypto_data
  = read_bytes encrypt_key key_len ++ repeat 0 (sizeof_Key L - key_len)%nat
  /\ slice (off_Decrypt L + off_Key L) (sizeof_Key L) crypto_data
     = read_bytes decrypt_key key_len
       ++ repeat 0 (sizeof_Key L - key_len)%nat
  /\ (forall encrypt_key' decrypt_key',
         read_bytes encrypt_key' key_len = read_bytes encrypt_key key_len ->
         read_bytes decrypt_key' key_len = read_bytes decrypt_key key_len ->
         dco_new_key_data L E peerid keyid slot encrypt_key' encrypt_iv
           decrypt_key' decrypt_iv ciphername
         = crypto_data)
  /\ ((key_len <= length (mem_bytes encrypt_key))%nat ->
      slice (off_Encrypt L + off_Key L) (sizeof_Key L) crypto_data
      = firstn key_len (mem_bytes encrypt_key)
        ++ repeat 0 (sizeof_Key L - key_len)%nat)
  /\ ((key_len <= length (mem_bytes decrypt_key))%nat ->
      slice (off_Decrypt L + off_Key L) (sizeof_Key L) crypto_data
      = firstn key_len (mem_bytes decrypt_key)
        ++ repeat 0 (sizeof_Key L - key_len)%nat)
  /\ exists w',
       dco_new_key L E dco peerid keyid slot encrypt_key encrypt_iv
         decrypt_key decrypt_iv ciphername w
       = (if win_ok (ioctl_reply E (w_ioctls w))
          then Returned 0 w' else Exited w')
       /\ w_trace w' =
          w_trace w
          ++ [EvMsg D_DCO_DEBUG
                "%s: slot %d, key-id %d, peer-id %d, cipher %s"
                [AStr "dco_new_key"; ANum slot; ANum keyid; ANum peerid;
                 AStr ciphername];
              EvIoctl (hand (dco_tt dco)) OVPN_IOCTL_NEW_KEY crypto_data
                false]
          ++ match ioctl_reply E (w_ioctls w) with
             | WinOk => []
             | WinErr err =>
                 [EvMsg M_ERR
                    "DeviceIoControl(OVPN_IOCTL_NEW_KEY) failed with code %lu"
                    [ANum err]]
             end.
Proof.
  intros Hlay Hcap Hcipher key_len crypto_data.
  destruct (new_key_key_fields L E peerid keyid slot encrypt_key encrypt_iv
              decrypt_key decrypt_iv ciphername Hlay Hcap) as [Henc Hdec].
  fold key_len in Henc, Hdec. fold crypto_data in Henc, Hdec.
  destruct Hlay as (H1 & H2 & H3 & H4 & H5 & H6 & H7 & H8).
  assert (Halg : CipherAlg L crypto_data = dco_get_cipher E ciphername).
  { unfold CipherAlg. subst crypto_data. unfold dco_new_key_data.
    fold key_len.
    rewrite !slice_store_other
      by (rewrite ?le_bytes_length, ?read_bytes_length; lia).
    rewrite slice_store_same
      by (rewrite ?le_bytes_length, ?ZeroMemory_length; lia).
    rewrite le_decode_le_bytes.
    destruct (enum_signed L).
    - apply int32_small. lia.
    - change (256 ^ Z.of_nat 4) with (2 ^ 32). apply Z.mod_small. lia. }
  split; [exact Henc|]. split; [exact Hdec|].
  split; [|split; [|split]].
  - intros encrypt_key' decrypt_key' He Hd.
    subst crypto_data. unfold dco_new_key_data. fold key_len.
    now rewrite He, Hd.
  - intros Hin. rewrite Henc. now rewrite read_bytes_inside.
  - intros Hin. rewrite Hdec. now rewrite read_bytes_inside.
  - unfold dco_new_key. fold crypto_data. unfold ASSERT.
    rewrite Halg.
    destruct (Z.ltb_spec 0 (dco_get_cipher E ciphername)) as [_|]; [|lia].
    run_monad.
    destruct (ioctl_reply E (w_ioctls w)) as [|err]; world_simpl;
      (eexists; split; [reflexivity|]); world_simpl;
      rewrite <- ?app_assoc; cbn [app]; now rewrite ?app_nil_r.
Qed.

(** The amended C2 on an "AES-128-GCM" key in a 32-byte buffer: sixteen
    bytes are copied, the upper half of the key field stays zero and the
    request is issued. *)
Lemma new_key_copies_key_len_witness :
  slice 0 32 (dco_new_key_data win_abi env_ok 7 3 0 key32 iv8 key32 iv8
                "AES-128-GCM")
  = repeat 34 16%nat ++ repeat 0 16%nat
  /\ dco_new_key_data win_abi env_ok 7 3 0 key16 iv8 key16 iv8 "AES-128-GCM"
     = dco_new_key_data win_abi env_ok 7 3 0
         {| mem_bytes := repeat 17 16%nat; mem_beyond := fun _ => 0 |} iv8
         key16 iv8 "AES-128-GCM"
  /\ exists w',
       dco_new_key win_abi env_ok dco0 7 3 0 key32 iv8 key32 iv8
         "AES-128-GCM" world0 = Returned 0 w'.
Proof.
  destruct (new_key_copies_key_len win_abi env_ok dco0 7 3 0 key32 iv8 key32
              iv8 "AES-128-GCM" world0 win_crypto_layout_ok)
    as (_ & _ & _ & Henc & _ & w' & Hrun & _).
  - cbn. lia.
  - cbn. lia.
  - destruct (new_key_copies_key_len win_abi env_ok dco0 7 3 0 key16 iv8
                key16 iv8 "AES-128-GCM" world0 win_crypto_layout_ok)
      as (_ & _ & Hsame & _).
    + cbn. lia.
    + cbn. lia.
    + split; [apply Henc; cbn; lia|].
      split; [|exists w'; exact Hrun].
      symmetry. apply Hsame; reflexivity.
Defined.

(** C2 as stated fails: with "AES-256-GCM" (32-byte key) and an encrypt
    key buffer of 16 bytes, [dco_new_key] reports nothing, copies 32
    bytes, of which the last 16 are the memory behind the buffer (238
    here), and submits them to the driver, returning 0. *)
Lemma new_key_reads_past_short_buffer :
  length (mem_bytes key16) = 16%nat
  /\ cipher_kt_key_size env_ok "AES-256-GCM" = 32%nat
  /\ exists crypto_data w',
       dco_new_key win_abi env_ok dco0 7 3 0 key16 iv8 key32 iv8
         "AES-256-GCM" world0 = Returned 0 w'
       /\ w_trace w' =
          [EvMsg D_DCO_DEBUG "%s: slot %d, key-id %d, peer-id %d, cipher %s"
             [AStr "dco_new_key"; ANum 0; ANum 3; ANum 7;
              AStr "AES-256-GCM"];
           EvIoctl (Some 1000) OVPN_IOCTL_NEW_KEY crypto_data false]
       /\ slice 0 32 crypto_data = repeat 17 16%nat ++ repeat 238 16%nat.
Proof.
  split; [reflexivity|]. split; [reflexivity|].
  eexists. eexists. split; [vm_compute; reflexivity|].
  split; reflexivity.
Qed.

(** * Further properties of dco_win.c *)

(** ** The peer descriptor *)

Ltac lengths :=
  rewrite ?le_bytes_length, ?read_bytes_length, ?store_length,
    ?ZeroMemory_length;
  cbn [length in6addr_any in4addr_any repeat]; lia.

(** X1.  In the descriptor that [dco_create_socket] builds, [Proto] is
    [OVPN_PROTO_TCP] exactly when the remote's protocol is [IPPROTO_TCP]
    or its socket type is [SOCK_STREAM], and [OVPN_PROTO_UDP] otherwise;
    [Remote] is the remote's socket address, copied in the size of its
    family.  Neither is disturbed by the writes to [Local]. *)
Theorem peer_descriptor_contents L remoteaddr bind_local bind w peer w1 :
  peer_layout_ok L ->
  dco_create_socket_peer L remoteaddr bind_local bind w = Returned peer w1 ->
  let family := sa_family (ai_addr remoteaddr) in
  slice (off_Proto L) 4 peer
  = le_bytes 4
      (if (ai_protocol remoteaddr =? IPPROTO_TCP)
          || (ai_socktype remoteaddr =? SOCK_STREAM)
       then OVPN_PROTO_TCP L else OVPN_PROTO_UDP L)
  /\ slice (off_Remote L) (sizeof_sockaddr family) peer
     = read_bytes (ai_addr remoteaddr) (sizeof_sockaddr family).
Proof.
  intros (HL & HR & HP & HLR & HLP & HRP).
  unfold dco_create_socket_peer, mbind, msg, ASSERT, ret.
  cbn [msg_exits]. unfold sizeof_sockaddr.
  unfold disjoint, sizeof_SOCKADDR_IN6, sizeof_SOCKADDR_IN, off_sin6_addr,
    off_sin6_port, off_sin6_family, off_sin_addr, off_sin_port,
    off_sin_family in *.
  match goal with
  | |- context [if ?c then store ?o ?a ?z else store ?o ?b ?z] =>
      set (peer0 := if c then store o a z else store o b z)
  end.
  assert (Hlen : length peer0 = sizeof_OVPN_NEW_PEER L).
  { subst peer0. destruct (_ || _);
      now rewrite store_length, ZeroMemory_length. }
  assert (Hproto : slice (off_Proto L) 4 peer0
                   = le_bytes 4
                       (if (ai_protocol remoteaddr =? IPPROTO_TCP)
                           || (ai_socktype remoteaddr =? SOCK_STREAM)
                        then OVPN_PROTO_TCP L else OVPN_PROTO_UDP L)).
  { subst peer0. destruct (_ || _);
      (apply slice_store_same; [now rewrite le_bytes_length|]);
      rewrite ZeroMemory_length; lia. }
  destruct bind_local; cbn [andb];
    [destruct (bind_scan _ bind None) as [l|]; cbn [is_null msg_exits];
     [|discriminate] |];
    (destruct (sa_family (ai_addr remoteaddr) =? AF_INET6);
     [| destruct (sa_family (ai_addr remoteaddr) =? AF_INET);
        [|discriminate]]);
    intros [= <- _]; cbv zeta;
    (split;
     [ rewrite !slice_store_other by lengths; exact Hproto
     | rewrite !slice_store_other by lengths;
       apply slice_store_same; [now rewrite read_bytes_length|];
       rewrite Hlen; lia ]).
Qed.

(** X1 on a TCP remote over IPv6 and a UDP remote over IPv4. *)
Lemma peer_descriptor_contents_witness :
  (exists peer,
      dco_create_socket_peer win_abi remote_tcp_v6 false [] world0
      = Returned peer
          (log (EvMsg D_DCO_DEBUG "%s" [AStr "dco_create_socket"]) world0)
      /\ slice 56 4 peer = [1; 0; 0; 0]
      /\ slice 28 28 peer = mem_bytes sockaddr_v6)
  /\
  (exists peer,
      dco_create_socket_peer win_abi remote_udp_v4 true [local_v4] world0
      = Returned peer
          (log (EvMsg D_DCO_DEBUG "%s" [AStr "dco_create_socket"]) world0)
      /\ slice 56 4 peer = [0; 0; 0; 0]
      /\ slice 28 16 peer = mem_bytes sockaddr_v4).
Proof.
  split; eexists; (split; [reflexivity|]).
  - exact (peer_descriptor_contents win_abi remote_tcp_v6 false [] world0
             _ _ win_peer_layout_ok eq_refl).
  - exact (peer_descriptor_contents win_abi remote_udp_v4 true [local_v4]
             world0 _ _ win_peer_layout_ok eq_refl).
Defined.

(** X2.  A remote whose socket address is of neither [AF_INET] nor
    [AF_INET6] stops [dco_create_socket] at [ASSERT(0)], provided the
    bind check let it through (no binding, or a candidate of that
    family): the process ends before the device is opened and before any
    driver call. *)
Theorem unsupported_family_asserts L E fuel remoteaddr bind_local bind
  devname timeout w :
  let family := sa_family (ai_addr remoteaddr) in
  family <> AF_INET -> family <> AF_INET6 ->
  bind_local = false
  \/ (exists c, find (fun b => ai_family b =? family) bind = Some c) ->
  exists w',
    dco_create_socket L E fuel remoteaddr bind_local bind devname timeout w
    = Exited w'
    /\ w_trace w' =
       w_trace w ++ [EvMsg D_DCO_DEBUG "%s" [AStr "dco_create_socket"];
                     EvAssert]
    /\ w_ioctls w' = w_ioctls w
    /\ w_signal w' = w_signal w.
Proof.
  intros family H4 H6 Hbind.
  apply Z.eqb_neq in H4, H6.
  unfold dco_create_socket, dco_create_socket_peer, mbind, msg, ASSERT, ret.
  cbn [msg_exits]. fold family. rewrite H4, H6.
  assert (Hcheck : bind_local
                   && is_null (if bind_local
                               then bind_scan family bind None else None)
                   = false).
  { destruct Hbind as [-> | (c & Hc)]; [reflexivity|].
    rewrite bind_scan_first, Hc. now destruct bind_local. }
  rewrite Hcheck. cbn [msg_exits].
  eexists. split; [reflexivity|].
  unfold log. world_simpl. rewrite <- app_assoc. repeat split.
Qed.

(** X2 on a remote of family [AF_UNIX]. *)
Lemma unsupported_family_asserts_witness :
  exists w',
    dco_create_socket win_abi env_ok 50 remote_unix false [] "ovpn-dco" 5
      world0 = Exited w'
    /\ w_trace w' = [EvMsg D_DCO_DEBUG "%s" [AStr "dco_create_socket"];
                     EvAssert]
    /\ w_ioctls w' = 0%nat.
Proof.
  destruct (unsupported_family_asserts win_abi env_ok 50 remote_unix false
              [] "ovpn-dco" 5 world0)
    as (w' & Hrun & Htrace & Hio & _).
  - discriminate.
  - discriminate.
  - left. reflexivity.
  - exists w'. repeat split; assumption.
Defined.

(** ** The wait, for any driver *)

(** X3.  A pending request that completes at poll [k], after [k] idle
    polls, makes [dco_create_socket] return the open handle after exactly
    [k + 1] polls, none of them beyond the budget.  The poll that
    completes does not look at the flag: a signal raised during that
    quantum does not turn the success into a cancellation.  The handle is
    not released and the flag is not written. *)
Theorem connect_completes_at_poll L E fuel remoteaddr bind_local bind
  devname timeout peer w w1 k :
  dco_create_socket_peer L remoteaddr bind_local bind w = Returned peer w1 ->
  ioctl_reply E (w_ioctls w) = WinErr ERROR_IO_PENDING ->
  w_signal w = 0 ->
  Z.of_nat k < poll_budget timeout ->
  (forall j, (j < k)%nat ->
     still_pending (wait_reply E (w_waits w + j)) /\
     signal_env E (S (w_waits w + j)) 0 = 0) ->
  wait_reply E (w_waits w + k) = WinOk ->
  (k < fuel)%nat ->
  exists w',
    dco_create_socket L E fuel remoteaddr bind_local bind devname timeout w
    = Returned (tt_open E devname) w'
    /\ w_waits w' = (w_waits w + k + 1)%nat
    /\ w_signal w' = 0
    /\ w_trace w' =
       w_trace (submitted E peer devname w1)
       ++ List.concat (repeat (poll_events (Some (device_handle E devname))) k)
       ++ [EvWait (Some (device_handle E devname)) poll_interval_ms]
    /\ closes w' = closes w.
Proof.
  intros Hpeer Hpend Hsig Hk Hidle Hdone Hfuel.
  pose proof (poll_budget_range timeout) as Hb.
  replace fuel with (k + S (fuel - k - 1))%nat by lia.
  destruct (connect_after_idle L E (S (fuel - k - 1)) remoteaddr bind_local
              bind devname timeout peer w w1 k Hpeer Hpend Hsig
              ltac:(lia) Hidle)
    as (Hrun & Hz & Hwaits & _ & Htrace & Hcl).
  rewrite Hrun.
  rewrite wait_loop_done.
  - cbn [Z.eqb negb]. eexists. split; [reflexivity|].
    unfold closes in *. world_simpl.
    rewrite Hz, Hwaits, Htrace.
    repeat split.
    + lia.
    + rewrite <- !app_assoc. reflexivity.
    + rewrite Htrace, filter_app, length_app in Hcl.
      rewrite !filter_app, !length_app.
      cbn [filter is_close app length]. lia.
  - apply budget_positive. lia.
  - rewrite Hwaits. exact Hdone.
Qed.

(** X3 on a request that completes at the third poll while [SIGTERM]
    arrives: success after three polls. *)
Lemma connect_completes_at_poll_witness :
  exists w',
    dco_create_socket win_abi env_third 50 remote_udp_v4 false []
      "ovpn-dco" 5 world0 = Returned (tt_open env_third "ovpn-dco") w'
    /\ w_waits w' = 3%nat
    /\ closes w' = 0%nat.
Proof.
  destruct (connect_completes_at_poll win_abi env_third 50 remote_udp_v4
              false [] "ovpn-dco" 5
              (store 56 (le_bytes 4 0)
                 (store 28 (read_bytes sockaddr_v4 16)
                    (store 4 in4addr_any
                       (store 2 (le_bytes 2 0)
                          (store 0 (le_bytes 2 AF_INET) (ZeroMemory 60))))))
              world0
              (log (EvMsg D_DCO_DEBUG "%s" [AStr "dco_create_socket"]) world0)
              2%nat)
    as (w' & Hrun & Hwaits & _ & _ & Hcl).
  - reflexivity.
  - reflexivity.
  - reflexivity.
  - vm_compute. reflexivity.
  - intros j Hj.
    destruct j as [|[|j]]; [split | split | lia];
      (left; reflexivity) || reflexivity.
  - reflexivity.
  - lia.
  - exists w'. repeat split; assumption.
Defined.

(** Building the descriptor makes no poll and leaves the flag alone. *)
Lemma peer_quiet L remoteaddr bind_local bind w :
  match dco_create_socket_peer L remoteaddr bind_local bind w with
  | Returned _ w' | Exited w' =>
      w_waits w' = w_waits w /\ w_signal w' = w_signal w
      /\ signal_writes w' = signal_writes w
  | OutOfFuel => False
  end.
Proof.
  assert (Hlog : forall e,
             is_signal_write e = false ->
             w_waits (log e w) = w_waits w
             /\ w_signal (log e w) = w_signal w
             /\ signal_writes (log e w) = signal_writes w).
  { intros e He. unfold signal_writes, log. world_simpl.
    rewrite filter_app. cbn [filter]. rewrite He. now rewrite app_nil_r. }
  assert (Hlog2 : forall e1 e2,
             is_signal_write e1 = false -> is_signal_write e2 = false ->
             w_waits (log e2 (log e1 w)) = w_waits w
             /\ w_signal (log e2 (log e1 w)) = w_signal w
             /\ signal_writes (log e2 (log e1 w)) = signal_writes w).
  { intros e1 e2 H1 H2. unfold signal_writes, log. world_simpl.
    rewrite !filter_app. cbn [filter]. rewrite H1, H2.
    now rewrite !app_nil_r. }
  unfold dco_create_socket_peer, mbind, msg, ASSERT, ret. cbn [msg_exits].
  destruct (bind_local && is_null _); cbn [msg_exits].
  - now apply Hlog2.
  - destruct (sa_family (ai_addr remoteaddr) =? AF_INET6).
    + destruct (if bind_local then _ else _); now apply Hlog.
    + destruct (sa_family (ai_addr remoteaddr) =? AF_INET).
      * destruct (if bind_local then _ else _); now apply Hlog.
      * now apply Hlog2.
Qed.

(** [dco_create_socket] by cases on what the driver answers to the
    new-peer request. *)
Lemma connect_cases L E fuel remoteaddr bind_local bind devname timeout w :
  dco_create_socket L E fuel remoteaddr bind_local bind devname timeout w =
  match dco_create_socket_peer L remoteaddr bind_local bind w with
  | Returned peer w1 =>
      match ioctl_reply E (w_ioctls w1) with
      | WinOk => Returned (tt_open E devname) (submitted E peer devname w1)
      | WinErr err =>
          if err =? ERROR_IO_PENDING then
            match dco_connect_wait_loop E fuel
                    (Some (device_handle E devname))
                    (dword (50 * poll_budget timeout))
                    (submitted E peer devname w1) with
            | Returned r w' =>
                if negb (r =? 0)
                then Returned tt_closed
                       (log (EvCloseHandle (device_handle E devname)) w')
                else Returned (tt_open E devname) w'
            | Exited w' => Exited w'
            | OutOfFuel => OutOfFuel
            end
          else
            Exited
              (log (EvMsg M_ERR
                      "DeviceIoControl(OVPN_IOCTL_NEW_PEER) failed with code %lu"
                      [ANum err])
                 (submitted E peer devname w1))
      end
  | Exited w' => Exited w'
  | OutOfFuel => OutOfFuel
  end.
Proof.
  unfold dco_create_socket, mbind at 1.
  destruct (dco_create_socket_peer L remoteaddr bind_local bind w)
    as [peer w1 | w1 |]; try reflexivity.
  destruct (ioctl_reply E (w_ioctls w1)) as [|err] eqn:Hreply.
  - unfold dco_create_socket_connect, create_dco_handle, tun_open_device,
      submitted, tt_open.
    run_monad. rewrite Hreply. world_simpl.
    rewrite <- !app_assoc. reflexivity.
  - destruct (Z.eqb_spec err ERROR_IO_PENDING) as [-> | Hne].
    + now apply connect_pending.
    + unfold dco_create_socket_connect, create_dco_handle, tun_open_device,
        submitted.
      run_monad. rewrite Hreply. world_simpl.
      apply Z.eqb_neq in Hne. rewrite Hne. world_simpl.
      rewrite <- !app_assoc. reflexivity.
Qed.

(** With [r] polls left in the budget the loop makes at most [r]. *)
Lemma wait_loop_bound E h fuel :
  forall r w,
    0 <= r < 2 ^ 31 ->
    match dco_connect_wait_loop E fuel h (dword (50 * r)) w with
    | Returned _ w' => Z.of_nat (w_waits w') <= Z.of_nat (w_waits w) + r
    | Exited _ => False
    | OutOfFuel => True
    end.
Proof.
  induction fuel as [|fuel IH]; intros r w Hr; [exact I|].
  cbn [dco_connect_wait_loop].
  destruct (Z.ltb_spec 0 (dword (50 * r))) as [Hpos|Hnpos].
  - assert (Hr0 : r <> 0).
    { intros ->. revert Hpos. cbv. discriminate. }
    rewrite budget_step.
    run_monad.
    destruct (wait_reply E (w_waits w)) as [|err]; world_simpl; [lia|].
    destruct (negb (err =? WAIT_TIMEOUT) && negb (err =? ERROR_IO_INCOMPLETE));
      world_simpl; [lia|].
    match goal with
    | |- context [negb (?s =? 0)] => destruct (negb (s =? 0))
    end; world_simpl; [lia|].
    match goal with
    | |- context [dco_connect_wait_loop E fuel h ?T' ?w'] =>
        specialize (IH (r - 1) w' ltac:(lia));
        destruct (dco_connect_wait_loop E fuel h T' w') as [r' w''| |]; auto
    end.
    revert IH. world_simpl. lia.
  - run_monad. lia.
Qed.

(** X4.  Whatever the driver and the signals do, [dco_create_socket]
    comes to an end after at most [poll_budget timeout] polls, which is
    below [2 ^ 31] for every timeout: with more fuel than that the run
    finishes, and a finished run has polled no more often than that.  For
    a timeout [t >= 0] with [20 * t < 2 ^ 31] the quanta waited add up to
    at most [t] seconds. *)
Theorem connect_poll_bound L E fuel remoteaddr bind_local bind devname
  timeout w :
  match dco_create_socket L E fuel remoteaddr bind_local bind devname
          timeout w with
  | Returned _ w' | Exited w' =>
      Z.of_nat (w_waits w') <= Z.of_nat (w_waits w) + poll_budget timeout
      /\ Z.of_nat (w_waits w') - Z.of_nat (w_waits w) < 2 ^ 31
      /\ (0 <= timeout -> 20 * timeout < 2 ^ 31 ->
          poll_interval_ms * (Z.of_nat (w_waits w') - Z.of_nat (w_waits w))
          <= timeout * 1000)
  | OutOfFuel => Z.of_nat fuel <= poll_budget timeout
  end.
Proof.
  assert (Hgoal : forall n : Z,
             n <= Z.of_nat (w_waits w) + poll_budget timeout ->
             n <= Z.of_nat (w_waits w) + poll_budget timeout
             /\ n - Z.of_nat (w_waits w) < 2 ^ 31
             /\ (0 <= timeout -> 20 * timeout < 2 ^ 31 ->
                 poll_interval_ms * (n - Z.of_nat (w_waits w))
                 <= timeout * 1000)).
  { intros n Hn. pose proof (poll_budget_range timeout) as Hb.
    repeat split; try lia.
    intros H0 Hs. unfold poll_budget in *.
    rewrite Z.mod_small in Hn by lia. unfold poll_interval_ms. lia. }
  pose proof (poll_budget_range timeout) as Hb.
  rewrite connect_cases.
  pose proof (peer_quiet L remoteaddr bind_local bind w) as Hq.
  destruct (dco_create_socket_peer L remoteaddr bind_local bind w)
    as [peer w1 | w1 |]; [| | contradiction].
  - destruct Hq as (Hw & _).
    destruct (ioctl_reply E (w_ioctls w1)) as [|err].
    + apply Hgoal. cbn [submitted w_waits]. lia.
    + destruct (err =? ERROR_IO_PENDING).
      * pose proof (wait_loop_bound E (Some (device_handle E devname)) fuel
                      (poll_budget timeout) (submitted E peer devname w1) Hb)
          as Hbound.
        pose proof (wait_loop_total E (Some (device_handle E devname))
                      (Z.to_nat (poll_budget timeout)) fuel
                      (submitted E peer devname w1)) as Htot.
        rewrite Z2Nat.id in Htot by lia.
        destruct (dco_connect_wait_loop E fuel _ _ _) as [r w'| |];
          [|contradiction|].
        -- cbn [submitted w_waits] in Hbound.
           destruct (negb (r =? 0)); apply Hgoal;
             unfold log; world_simpl; lia.
        -- destruct (Z_lt_le_dec (poll_budget timeout) (Z.of_nat fuel));
             [|assumption].
           exfalso. apply Htot; [lia | reflexivity].
      * apply Hgoal. cbn [submitted log w_waits]. lia.
  - destruct Hq as (Hw & _). apply Hgoal. lia.
Qed.

(** X4 on the request that completes at the third poll of a five-second
    budget: 150 ms waited. *)
Lemma connect_poll_bound_witness :
  exists w',
    dco_create_socket win_abi env_third 50 remote_udp_v4 false []
      "ovpn-dco" 5 world0 = Returned (tt_open env_third "ovpn-dco") w'
    /\ poll_interval_ms * Z.of_nat (w_waits w') <= 5 * 1000.
Proof.
  pose proof (connect_poll_bound win_abi env_third 50 remote_udp_v4 false []
                "ovpn-dco" 5 world0) as Hbound.
  destruct (dco_create_socket win_abi env_third 50 remote_udp_v4 false []
              "ovpn-dco" 5 world0) as [t w'| |] eqn:Hrun;
    try (exfalso; revert Hrun; vm_compute; discriminate).
  destruct Hbound as (_ & _ & Hms).
  specialize (Hms ltac:(lia) ltac:(lia)).
  exists w'. split; [|cbn [world0 w_waits] in Hms; lia].
  revert Hrun. vm_compute. intros [= <- <-]. reflexivity.
Defined.

Lemma poll_budget_negative timeout :
  timeout < 0 -> - 2 ^ 31 <= 20 * timeout ->
  poll_budget timeout = 2 ^ 31 + 20 * timeout.
Proof.
  intros Hneg Hlow. unfold poll_budget.
  replace (20 * timeout) with (2 ^ 31 + 20 * timeout + (-1) * 2 ^ 31)
    at 1 by lia.
  rewrite Z.mod_add by lia. apply Z.mod_small. lia.
Qed.

(** X5.  A negative timeout is not a timeout that has already passed.
    [timeout * 1000] becomes a large [DWORD], and for a timeout [t] with
    [-107374182 <= t < 0] a pending request that never completes is
    polled [2 ^ 31 + 20 * t] times before the timeout is reported and the
    handle released. *)
Theorem connect_negative_timeout L E fuel remoteaddr bind_local bind
  devname timeout peer w w1 :
  dco_create_socket_peer L remoteaddr bind_local bind w = Returned peer w1 ->
  timeout < 0 -> - 2 ^ 31 <= 20 * timeout ->
  ioctl_reply E (w_ioctls w) = WinErr ERROR_IO_PENDING ->
  w_signal w = 0 ->
  (forall n, still_pending (wait_reply E n)) ->
  (forall n, signal_env E n 0 = 0) ->
  2 ^ 31 + 20 * timeout < Z.of_nat fuel ->
  exists w',
    dco_create_socket L E fuel remoteaddr bind_local bind devname timeout w
    = Returned tt_closed w'
    /\ Z.of_nat (w_waits w') = Z.of_nat (w_waits w) + 2 ^ 31 + 20 * timeout
    /\ w_signal w' = SIGUSR1
    /\ closes w' = S (closes w).
Proof.
  intros Hpeer Hneg Hlow Hpend Hsig Hwait Hnosig Hfuel.
  rewrite <- (poll_budget_negative timeout Hneg Hlow) in Hfuel.
  destruct (connect_never_completes L E fuel remoteaddr bind_local bind
              devname timeout peer w w1 Hpeer Hpend Hsig Hwait Hnosig Hfuel)
    as (w' & Hrun & Hwaits & Hflag & _ & Hcl).
  exists w'. rewrite Hwaits, poll_budget_negative by assumption.
  repeat split; try assumption. lia.
Qed.

(** X5 at the lowest timeout of that range: eight polls. *)
Lemma connect_negative_timeout_witness :
  exists w',
    dco_create_socket win_abi env_never 9 remote_udp_v4 false []
      "ovpn-dco" (-107374182) world0 = Returned tt_closed w'
    /\ Z.of_nat (w_waits w') = 8.
Proof.
  destruct (connect_negative_timeout win_abi env_never 9 remote_udp_v4 false
              [] "ovpn-dco" (-107374182)
              (store 56 (le_bytes 4 0)
                 (store 28 (read_bytes sockaddr_v4 16)
                    (store 4 in4addr_any
                       (store 2 (le_bytes 2 0)
                          (store 0 (le_bytes 2 AF_INET) (ZeroMemory 60))))))
              world0
              (log (EvMsg D_DCO_DEBUG "%s" [AStr "dco_create_socket"]) world0))
    as (w' & Hrun & Hwaits & _).
  - reflexivity.
  - lia.
  - lia.
  - reflexivity.
  - reflexivity.
  - intros n. left. reflexivity.
  - intros n. reflexivity.
  - cbn. lia.
  - exists w'. split; [exact Hrun | exact Hwaits].
Defined.

(** What the wait loop itself writes to the flag: nothing when it
    returns 0, and at most one [SIGUSR1] when it returns -1. *)
Lemma wait_loop_writes E h fuel :
  forall T w,
    match dco_connect_wait_loop E fuel h T w with
    | Returned r w' =>
        (r = 0 /\ signal_writes w' = signal_writes w)
        \/ (r = -1 /\
            (signal_writes w' = signal_writes w
             \/ (signal_writes w'
                 = signal_writes w ++ [EvWriteSignal SIGUSR1]
                 /\ w_signal w' = SIGUSR1)))
    | Exited _ => False
    | OutOfFuel => True
    end.
Proof.
  induction fuel as [|fuel IH]; intros T w; [exact I|].
  cbn [dco_connect_wait_loop].
  destruct (0 <? T).
  - run_monad.
    destruct (wait_reply E (w_waits w)) as [|err]; world_simpl.
    + left. split; [reflexivity|].
      unfold signal_writes. world_simpl.
      rewrite filter_app. cbn. now rewrite app_nil_r.
    + destruct (negb (err =? WAIT_TIMEOUT)
                && negb (err =? ERROR_IO_INCOMPLETE)).
      * right. split; [reflexivity|]. right.
        unfold signal_writes. world_simpl.
        rewrite !filter_app. cbn. rewrite !app_nil_r. auto.
      * world_simpl.
        match goal with
        | |- context [negb (?s =? 0)] => destruct (negb (s =? 0))
        end.
        -- right. split; [reflexivity|]. left.
           unfold signal_writes. world_simpl.
           rewrite !filter_app. cbn. now rewrite !app_nil_r.
        -- match goal with
           | |- context [dco_connect_wait_loop E fuel h ?T' ?w'] =>
               specialize (IH T' w');
               destruct (dco_connect_wait_loop E fuel h T' w')
                 as [r w''| |]; auto;
               assert (Hsame : signal_writes w' = signal_writes w)
           end.
           { unfold signal_writes. world_simpl.
             rewrite !filter_app. cbn. now rewrite !app_nil_r. }
           rewrite Hsame in IH. exact IH.
  - run_monad. right. split; [reflexivity|]. right.
    unfold signal_writes. world_simpl.
    rewrite !filter_app. cbn. rewrite !app_nil_r. auto.
Qed.

(** X6.  Whatever the driver and the signals do, [dco_create_socket]
    writes the cancellation flag at most once, only with [SIGUSR1], and
    only on a run that ends with the handle released; a run that returns
    the open handle or ends the process has not written it. *)
Theorem connect_flag_writes L E fuel remoteaddr bind_local bind devname
  timeout w :
  match dco_create_socket L E fuel remoteaddr bind_local bind devname
          timeout w with
  | Returned t w' =>
      match hand t with
      | Some _ => signal_writes w' = signal_writes w
      | None =>
          signal_writes w' = signal_writes w
          \/ (signal_writes w' = signal_writes w ++ [EvWriteSignal SIGUSR1]
              /\ w_signal w' = SIGUSR1)
      end
  | Exited w' => signal_writes w' = signal_writes w
  | OutOfFuel => True
  end.
Proof.
  rewrite connect_cases.
  pose proof (peer_quiet L remoteaddr bind_local bind w) as Hq.
  destruct (dco_create_socket_peer L remoteaddr bind_local bind w)
    as [peer w1 | w1 |]; [| tauto | contradiction].
  destruct Hq as (_ & _ & Hw).
  assert (Hsub : signal_writes (submitted E peer devname w1)
                 = signal_writes w).
  { rewrite <- Hw. unfold signal_writes, submitted. world_simpl.
    rewrite filter_app. cbn. now rewrite app_nil_r. }
  destruct (ioctl_reply E (w_ioctls w1)) as [|err].
  - exact Hsub.
  - destruct (err =? ERROR_IO_PENDING).
    + pose proof (wait_loop_writes E (Some (device_handle E devname)) fuel
                    (dword (50 * poll_budget timeout))
                    (submitted E peer devname w1)) as Hwr.
      destruct (dco_connect_wait_loop E fuel _ _ _) as [r w'| |];
        [|contradiction|exact I].
      rewrite Hsub in Hwr.
      assert (Hclose : signal_writes
                         (log (EvCloseHandle (device_handle E devname)) w')
                       = signal_writes w').
      { unfold signal_writes, log. world_simpl.
        rewrite filter_app. cbn. now rewrite app_nil_r. }
      destruct Hwr as [(-> & Hs) | (-> & Hs)];
        cbn [Z.eqb negb tt_open tt_closed hand].
      * exact Hs.
      * rewrite Hclose. unfold log. world_simpl. exact Hs.
    + rewrite <- Hsub. unfold signal_writes, log. world_simpl.
      rewrite filter_app. cbn. now rewrite app_nil_r.
Qed.

(** ** Key installation, keepalive and the rest *)

Lemma int32_mod z : - 2 ^ 31 <= z < 2 ^ 31 -> int32 (z mod 2 ^ 32) = z.
Proof.
  intros Hz. unfold int32.
  rewrite Zplus_mod_idemp_l.
  rewrite Z.mod_small by lia. lia.
Qed.

(** [crypto_data.CipherAlg] as the [ASSERT] reads it: the code that
    [dco_get_cipher] gave where enumerations are signed, and that code
    modulo [2 ^ 32] where they are unsigned. *)
Lemma CipherAlg_read_back L E peerid keyid slot encrypt_key encrypt_iv
  decrypt_key decrypt_iv ciphername :
  crypto_layout_ok L ->
  (cipher_kt_key_size E ciphername <= sizeof_Key L)%nat ->
  - 2 ^ 31 <= dco_get_cipher E ciphername < 2 ^ 31 ->
  CipherAlg L
    (dco_new_key_data L E peerid keyid slot encrypt_key encrypt_iv
       decrypt_key decrypt_iv ciphername)
  = if enum_signed L then dco_get_cipher E ciphername
    else dco_get_cipher E ciphername mod 2 ^ 32.
Proof.
  intros (H1 & H2 & H3 & H4 & H5 & H6 & H7 & H8) Hcap Hcode.
  unfold CipherAlg, dco_new_key_data.
  rewrite !slice_store_other by lengths.
  rewrite slice_store_same by lengths.
  rewrite le_decode_le_bytes.
  change (256 ^ Z.of_nat 4) with (2 ^ 32).
  destruct (enum_signed L); [now apply int32_mod | reflexivity].
Qed.

(** X7.  The descriptor that [dco_new_key] submits holds, each in its
    own field, the cipher code, the key id reduced to one byte, the peer
    id, the slot, and per direction the key length reduced to one byte
    and the first eight bytes behind the nonce pointer.  A peer id below
    [2 ^ 32] and a key id below 256 are read back unchanged. *)
Theorem new_key_fields L E peerid keyid slot encrypt_key encrypt_iv
  decrypt_key decrypt_iv ciphername :
  crypto_layout_ok L ->
  (cipher_kt_key_size E ciphername <= sizeof_Key L)%nat ->
  let key_len := cipher_kt_key_size E ciphername in
  let crypto_data :=
    dco_new_key_data L E peerid keyid slot encrypt_key encrypt_iv
      decrypt_key decrypt_iv ciphername in
  slice (off_CipherAlg L) 4 crypto_data
  = le_bytes 4 (dco_get_cipher E ciphername)
  /\ slice (off_KeyId L) 1 crypto_data = [keyid mod 256]
  /\ slice (off_PeerId L) 4 crypto_data = le_bytes 4 peerid
  /\ slice (off_KeySlot L) 4 crypto_data = le_bytes 4 slot
  /\ slice (off_Encrypt L + off_KeyLen L) 1 crypto_data
     = [Z.of_nat key_len mod 256]
  /\ slice (off_Decrypt L + off_KeyLen L) 1 crypto_data
     = [Z.of_nat key_len mod 256]
  /\ slice (off_Encrypt L + off_NonceTail L) 8 crypto_data
     = read_bytes encrypt_iv 8
  /\ slice (off_Decrypt L + off_NonceTail L) 8 crypto_data
     = read_bytes decrypt_iv 8
  /\ (0 <= peerid < 2 ^ 32 ->
      le_decode (slice (off_PeerId L) 4 crypto_data) = peerid)
  /\ (0 <= keyid < 256 ->
      le_decode (slice (off_KeyId L) 1 crypto_data) = keyid).
Proof.
  intros (H1 & H2 & H3 & H4 & H5 & H6 & H7 & H8) Hcap key_len crypto_data.
  assert (Hfield : forall off n data,
             n = length data ->
             (off + n <= sizeof_OVPN_CRYPTO_DATA L)%nat ->
             forall blk,
               length blk = sizeof_OVPN_CRYPTO_DATA L ->
               slice off n (store off data blk) = data).
  { intros off n data Hn Hin blk Hblk.
    apply slice_store_same; [exact Hn | rewrite Hblk; exact Hin]. }
  assert (Hid : slice (off_KeyId L) 1 crypto_data = [keyid mod 256]).
  { subst crypto_data. unfold dco_new_key_data. fold key_len.
    rewrite !slice_store_other by lengths.
    apply Hfield; [reflexivity | lia | lengths]. }
  assert (Hpeer : slice (off_PeerId L) 4 crypto_data = le_bytes 4 peerid).
  { subst crypto_data. unfold dco_new_key_data. fold key_len.
    rewrite !slice_store_other by lengths.
    apply Hfield; [reflexivity | lia | lengths]. }
  repeat split;
    try exact Hid; try exact Hpeer;
    try (subst crypto_data; unfold dco_new_key_data; fold key_len;
         rewrite ?slice_store_other by lengths;
         apply Hfield; [reflexivity | lia | lengths]).
  - intros Hr. rewrite Hpeer, le_decode_le_bytes.
    apply Z.mod_small. cbn. lia.
  - intros Hr. rewrite Hid. cbn [le_decode].
    rewrite Z.mod_small by lia. lia.
Qed.

(** X7 on an "AES-256-GCM" key for peer 7, key id 3, slot 0. *)
Lemma new_key_fields_witness :
  let crypto_data :=
    dco_new_key_data win_abi env_ok 7 3 0 key32 iv8 key32 iv8 "AES-256-GCM" in
  slice 88 4 crypto_data = [1; 0; 0; 0]
  /\ slice 92 1 crypto_data = [3]
  /\ slice 96 4 crypto_data = [7; 0; 0; 0]
  /\ slice 32 1 crypto_data = [32]
  /\ slice 33 8 crypto_data = mem_bytes iv8.
Proof.
  destruct (new_key_fields win_abi env_ok 7 3 0 key32 iv8 key32 iv8
              "AES-256-GCM" win_crypto_layout_ok)
    as (Halg & Hid & Hpeer & _ & Hlen & _ & Hnonce & _).
  - cbn. lia.
  - repeat split; assumption.
Defined.

(** X8.  A cipher for which [dco_get_cipher] gives code 0 stops
    [dco_new_key] at its [ASSERT]: the process ends and no key material
    is handed to the driver.  A negative code does the same where the
    compiler makes the enumeration signed; where the enumeration is
    unsigned the comparison [CipherAlg > 0] is unsigned too, a negative
    code passes it and the request is issued. *)
Theorem new_key_unknown_cipher L E dco peerid keyid slot encrypt_key
  encrypt_iv decrypt_key decrypt_iv ciphername w :
  crypto_layout_ok L ->
  (cipher_kt_key_size E ciphername <= sizeof_Key L)%nat ->
  - 2 ^ 31 <= dco_get_cipher E ciphername < 2 ^ 31 ->
  let crypto_data :=
    dco_new_key_data L E peerid keyid slot encrypt_key encrypt_iv
      decrypt_key decrypt_iv ciphername in
  let run :=
    dco_new_key L E dco peerid keyid slot encrypt_key encrypt_iv decrypt_key
      decrypt_iv ciphername w in
  (dco_get_cipher E ciphername = 0
   \/ (enum_signed L = true /\ dco_get_cipher E ciphername < 0) ->
   exists w',
     run = Exited w'
     /\ w_trace w' =
        w_trace w
        ++ [EvMsg D_DCO_DEBUG "%s: slot %d, key-id %d, peer-id %d, cipher %s"
              [AStr "dco_new_key"; ANum slot; ANum keyid; ANum peerid;
               AStr ciphername];
            EvAssert]
     /\ w_ioctls w' = w_ioctls w
     /\ driver_calls (w_trace w') = driver_calls (w_trace w))
  /\
  (enum_signed L = false -> dco_get_cipher E ciphername < 0 ->
   exists w',
     run = (if win_ok (ioctl_reply E (w_ioctls w))
            then Returned 0 w' else Exited w')
     /\ driver_calls (w_trace w') =
        driver_calls (w_trace w)
        ++ [EvIoctl (hand (dco_tt dco)) OVPN_IOCTL_NEW_KEY crypto_data
              false]).
Proof.
  intros Hlay Hcap Hcode crypto_data run. subst run.
  unfold dco_new_key, ASSERT. fold crypto_data.
  unfold crypto_data at 1 3.
  rewrite CipherAlg_read_back by assumption.
  split.
  - intros Hzero.
    assert (Hfail : (0 <? (if enum_signed L
                           then dco_get_cipher E ciphername
                           else dco_get_cipher E ciphername mod 2 ^ 32))
                    = false).
    { apply Z.ltb_ge.
      destruct Hzero as [-> | [-> Hneg]]; [|lia].
      destruct (enum_signed L); cbn; lia. }
    rewrite Hfail.
    run_monad. eexists. split; [reflexivity|]. world_simpl.
    rewrite <- app_assoc. cbn [app]. repeat split.
    unfold driver_calls. rewrite filter_app. cbn. now rewrite app_nil_r.
  - intros Hunsigned Hneg. rewrite Hunsigned.
    assert (Hpass : (0 <? dco_get_cipher E ciphername mod 2 ^ 32) = true).
    { apply Z.ltb_lt.
      replace (dco_get_cipher E ciphername)
        with (dco_get_cipher E ciphername + 2 ^ 32 + (-1) * 2 ^ 32) by lia.
      rewrite Z.mod_add by lia. rewrite Z.mod_small; lia. }
    rewrite Hpass.
    run_monad.
    destruct (ioctl_reply E (w_ioctls w)) as [|err]; world_simpl;
      (eexists; split; [reflexivity|]);
      unfold driver_calls; world_simpl;
      rewrite !filter_app; cbn; now rewrite ?app_nil_r.
Qed.

(** X8 on "BF-CBC", a cipher the driver does not have: with code 0 the
    [ASSERT] stops it under either compiler; with code -95 it is stopped
    where enumerations are signed and submitted where they are not. *)
Lemma new_key_unknown_cipher_witness :
  (exists w',
      dco_new_key mingw_abi env_ok dco0 7 3 0 key16 iv8 key16 iv8 "BF-CBC"
        world0 = Exited w'
      /\ driver_calls (w_trace w') = [])
  /\ (exists w',
         dco_new_key win_abi env_enotsup dco0 7 3 0 key16 iv8 key16 iv8
           "BF-CBC" world0 = Exited w'
         /\ driver_calls (w_trace w') = [])
  /\ (exists w',
         dco_new_key mingw_abi env_enotsup dco0 7 3 0 key16 iv8 key16 iv8
           "BF-CBC" world0 = Returned 0 w'
         /\ length (driver_calls (w_trace w')) = 1%nat).
Proof.
  assert (Hlay : crypto_layout_ok mingw_abi).
  { unfold crypto_layout_ok. cbn. lia. }
  split; [|split].
  - destruct (new_key_unknown_cipher mingw_abi env_ok dco0 7 3 0 key16 iv8
                key16 iv8 "BF-CBC" world0 Hlay) as [Hstop _].
    + cbn. lia.
    + cbn. lia.
    + destruct (Hstop (or_introl eq_refl)) as (w' & Hrun & _ & _ & Hcalls).
      exists w'. split; assumption.
  - destruct (new_key_unknown_cipher win_abi env_enotsup dco0 7 3 0 key16 iv8
                key16 iv8 "BF-CBC" world0 win_crypto_layout_ok) as [Hstop _].
    + cbn. lia.
    + cbn. lia.
    + destruct (Hstop (or_intror (conj eq_refl eq_refl)))
        as (w' & Hrun & _ & _ & Hcalls).
      exists w'. split; assumption.
  - destruct (new_key_unknown_cipher mingw_abi env_enotsup dco0 7 3 0 key16
                iv8 key16 iv8 "BF-CBC" world0 Hlay) as [_ Hpass].
    + cbn. lia.
    + cbn. lia.
    + destruct (Hpass eq_refl eq_refl) as (w' & Hrun & Hcalls).
      exists w'. split; [exact Hrun|]. rewrite Hcalls. reflexivity.
Defined.

(** X9.  Only the first [key_len] bytes of each key buffer and the first
    eight bytes of each nonce buffer reach the driver: two calls whose
    buffers hold at least that much and agree on those bytes build the
    same descriptor and run alike, whatever else the buffers hold and
    whatever lies behind them. *)
Theorem new_key_prefix_only L E dco peerid keyid slot ek ek' eiv eiv' dk dk'
  div div' ciphername w :
  let key_len := cipher_kt_key_size E ciphername in
  (key_len <= length (mem_bytes ek))%nat ->
  (key_len <= length (mem_bytes ek'))%nat ->
  (key_len <= length (mem_bytes dk))%nat ->
  (key_len <= length (mem_bytes dk'))%nat ->
  (8 <= length (mem_bytes eiv))%nat -> (8 <= length (mem_bytes eiv'))%nat ->
  (8 <= length (mem_bytes div))%nat -> (8 <= length (mem_bytes div'))%nat ->
  firstn key_len (mem_bytes ek) = firstn key_len (mem_bytes ek') ->
  firstn key_len (mem_bytes dk) = firstn key_len (mem_bytes dk') ->
  firstn 8 (mem_bytes eiv) = firstn 8 (mem_bytes eiv') ->
  firstn 8 (mem_bytes div) = firstn 8 (mem_bytes div') ->
  dco_new_key_data L E peerid keyid slot ek eiv dk div ciphername
  = dco_new_key_data L E peerid keyid slot ek' eiv' dk' div' ciphername
  /\ dco_new_key L E dco peerid keyid slot ek eiv dk div ciphername w
     = dco_new_key L E dco peerid keyid slot ek' eiv' dk' div' ciphername w.
Proof.
  intros key_len He He' Hd Hd' Hei Hei' Hdi Hdi' Hek Hdk Heiv Hdiv.
  assert (Hdata :
            dco_new_key_data L E peerid keyid slot ek eiv dk div ciphername
            = dco_new_key_data L E peerid keyid slot ek' eiv' dk' div'
                ciphername).
  { unfold dco_new_key_data. fold key_len.
    rewrite (read_bytes_inside ek), (read_bytes_inside ek'),
      (read_bytes_inside dk), (read_bytes_inside dk'),
      (read_bytes_inside eiv), (read_bytes_inside eiv'),
      (read_bytes_inside div), (read_bytes_inside div') by assumption.
    now rewrite Hek, Hdk, Heiv, Hdiv. }
  split; [exact Hdata|].
  unfold dco_new_key. now rewrite Hdata.
Qed.

(** X9 on a 40-byte buffer that starts like the 32-byte key. *)
Lemma new_key_prefix_only_witness :
  dco_new_key_data win_abi env_ok 7 3 0 key40 iv8 key32 iv8 "AES-256-GCM"
  = dco_new_key_data win_abi env_ok 7 3 0 key32 iv8 key32 iv8 "AES-256-GCM".
Proof.
  refine (proj1 (new_key_prefix_only win_abi env_ok dco0 7 3 0 key40 key32
                   iv8 iv8 key32 key32 iv8 iv8 "AES-256-GCM" world0
                   _ _ _ _ _ _ _ _ _ _ _ _));
    try reflexivity; cbn; lia.
Defined.

(** X10.  When [OVPN_SET_PEER] consists of its two four-byte fields and
    nothing else, nothing of the stack reaches the driver although the
    local has no initialiser: the descriptor is the same whatever the
    stack held. *)
Theorem set_peer_no_stack_bytes L E E' keepalive_interval keepalive_timeout :
  set_peer_layout_ok L ->
  sizeof_OVPN_SET_PEER L = 8%nat ->
  ovpn_set_peer_data L E keepalive_interval keepalive_timeout
  = ovpn_set_peer_data L E' keepalive_interval keepalive_timeout.
Proof.
  intros (HI & HT & Hdis) Hsize. unfold disjoint in Hdis.
  unfold ovpn_set_peer_data.
  assert (Hlen : forall F, length (uninitialised F (sizeof_OVPN_SET_PEER L))
                           = sizeof_OVPN_SET_PEER L).
  { intros F. unfold uninitialised. now rewrite length_map, length_seq. }
  apply (nth_ext _ _ 0 0).
  - now rewrite !store_length, !Hlen.
  - intros i Hi. rewrite !store_length, Hlen in Hi.
    rewrite !nth_store by (rewrite ?store_length, Hlen; lia).
    rewrite !le_bytes_length. unfold in_range.
    destruct (Nat.leb_spec (off_KeepaliveTimeout L) i);
      destruct (Nat.ltb_spec i (off_KeepaliveTimeout L + 4));
      destruct (Nat.leb_spec (off_KeepaliveInterval L) i);
      destruct (Nat.ltb_spec i (off_KeepaliveInterval L + 4));
      cbn [andb]; try reflexivity; lia.
Qed.

(** X10 on the layout of the driver header, for a stack of 204s and a
    stack of zeros. *)
Lemma set_peer_no_stack_bytes_witness :
  ovpn_set_peer_data win_abi env_ok 10 60
  = ovpn_set_peer_data win_abi env_ok_clean_stack 10 60.
Proof.
  exact (set_peer_no_stack_bytes win_abi env_ok env_ok_clean_stack 10 60
           win_set_peer_layout_ok eq_refl).
Defined.

(** X11.  [dco_del_key] does not take a key back.  After a successful
    [dco_new_key], [dco_del_key] for the same peer and slot returns 0 and
    the installation is still the last key request the driver has seen;
    and in any world [dco_del_key], [dco_del_peer] and [dco_new_peer]
    return 0 without a driver call and without touching the flag. *)
Theorem del_key_keeps_key L E dco peerid keyid slot encrypt_key encrypt_iv
  decrypt_key decrypt_iv ciphername sd localaddr remoteaddr remote_in4
  remote_in6 :
  (forall w w1,
      dco_new_key L E dco peerid keyid slot encrypt_key encrypt_iv
        decrypt_key decrypt_iv ciphername w = Returned 0 w1 ->
      exists w2,
        dco_del_key dco peerid slot w1 = Returned 0 w2
        /\ key_requests w2 =
           key_requests w
           ++ [EvIoctl (hand (dco_tt dco)) OVPN_IOCTL_NEW_KEY
                 (dco_new_key_data L E peerid keyid slot encrypt_key
                    encrypt_iv decrypt_key decrypt_iv ciphername) false])
  /\
  (forall w,
      exists w1 w2 w3,
        dco_del_key dco peerid slot w = Returned 0 w1
        /\ dco_del_peer dco peerid w = Returned 0 w2
        /\ dco_new_peer dco peerid sd localaddr remoteaddr remote_in4
             remote_in6 w = Returned 0 w3
        /\ driver_calls (w_trace w1) = driver_calls (w_trace w)
        /\ driver_calls (w_trace w2) = driver_calls (w_trace w)
        /\ driver_calls (w_trace w3) = driver_calls (w_trace w)
        /\ w_signal w1 = w_signal w /\ w_signal w2 = w_signal w
        /\ w_signal w3 = w_signal w).
Proof.
  split.
  - intros w w1. unfold dco_new_key, dco_del_key, ASSERT.
    destruct (0 <? CipherAlg L _); run_monad; [|discriminate].
    destruct (ioctl_reply E (w_ioctls w)); world_simpl; [|discriminate].
    intros [= <-]. eexists. split; [reflexivity|].
    unfold key_requests. world_simpl.
    rewrite !filter_app. cbn. now rewrite !app_nil_r.
  - intros w. unfold dco_del_key, dco_del_peer, dco_new_peer. run_monad.
    do 3 eexists. do 3 (split; [reflexivity|]).
    unfold driver_calls. world_simpl.
    rewrite !filter_app. cbn. rewrite !app_nil_r. repeat split.
Qed.

(** X11 on an installed "AES-256-GCM" key that is then deleted. *)
Lemma del_key_keeps_key_witness :
  exists w1 w2,
    dco_new_key win_abi env_ok dco0 7 3 0 key32 iv8 key32 iv8 "AES-256-GCM"
      world0 = Returned 0 w1
    /\ dco_del_key dco0 7 0 w1 = Returned 0 w2
    /\ length (key_requests w2) = 1%nat.
Proof.
  destruct (del_key_keeps_key win_abi env_ok dco0 7 3 0 key32 iv8 key32 iv8
              "AES-256-GCM" 0 iv8 iv8 iv8 iv8) as [Hkeep _].
  destruct (dco_new_key win_abi env_ok dco0 7 3 0 key32 iv8 key32 iv8
              "AES-256-GCM" world0) as [r w1| |] eqn:Hrun;
    try (exfalso; revert Hrun; vm_compute; discriminate).
  assert (Hr : r = 0).
  { revert Hrun. vm_compute. now intros [= <- _]. }
  subst r.
  destruct (Hkeep world0 w1 Hrun) as (w2 & Hdel & Hkeys).
  exists w1, w2. split; [reflexivity|]. split; [exact Hdel|].
  rewrite Hkeys. reflexivity.
Defined.

(** X12.  [dco_start_tun] issues one [OVPN_IOCTL_START_VPN] request
    without payload on the handle of the [tuntap].  If the driver refuses
    it the process ends there with the [M_ERR] message; otherwise the
    context it leaves refers to that [tuntap], so that a key swap made
    through the context goes to the same handle. *)
Theorem start_tun_routes E t peer_id w :
  (forall err,
      ioctl_reply E (w_ioctls w) = WinErr err ->
      exists w',
        (dco <- dco_start_tun E t ;; dco_swap_keys E dco peer_id)%dco w
        = Exited w'
        /\ driver_calls (w_trace w') =
           driver_calls (w_trace w)
           ++ [EvIoctl (hand t) OVPN_IOCTL_START_VPN [] false]
        /\ last (w_trace w') EvAssert =
           EvMsg M_ERR
             "DeviceIoControl(OVPN_IOCTL_START_VPN) failed with code %lu"
             [ANum err])
  /\
  (ioctl_reply E (w_ioctls w) = WinOk ->
   exists w1 w2,
     dco_start_tun E t w = Returned {| dco_tt := t |} w1
     /\ (dco <- dco_start_tun E t ;; dco_swap_keys E dco peer_id)%dco w
        = (if win_ok (ioctl_reply E (S (w_ioctls w)))
           then Returned 0 w2 else Exited w2)
     /\ driver_calls (w_trace w2) =
        driver_calls (w_trace w)
        ++ [EvIoctl (hand t) OVPN_IOCTL_START_VPN [] false;
            EvIoctl (hand t) OVPN_IOCTL_SWAP_KEYS [] false]).
Proof.
  split.
  - intros err Herr. unfold dco_start_tun, dco_swap_keys. run_monad.
    rewrite Herr. world_simpl.
    eexists. split; [reflexivity|]. world_simpl.
    unfold driver_calls. rewrite !filter_app. cbn. rewrite !app_nil_r.
    split; [reflexivity|].
    apply last_last.
  - intros Hok. unfold dco_start_tun, dco_swap_keys. run_monad.
    rewrite Hok. world_simpl.
    eexists.
    destruct (ioctl_reply E (S (w_ioctls w))); world_simpl;
      (eexists; split; [reflexivity|]; split; [reflexivity|]);
      unfold driver_calls; world_simpl;
      rewrite !filter_app; cbn; now rewrite ?app_nil_r, <- ?app_assoc.
Qed.

(** X12 on a driver that accepts both requests. *)
Lemma start_tun_routes_witness :
  exists w2,
    (dco <- dco_start_tun env_ok (tt_open env_ok "ovpn-dco") ;;
     dco_swap_keys env_ok dco 7)%dco world0 = Returned 0 w2
    /\ driver_calls (w_trace w2) =
       [EvIoctl (Some 1000) OVPN_IOCTL_START_VPN [] false;
        EvIoctl (Some 1000) OVPN_IOCTL_SWAP_KEYS [] false].
Proof.
  destruct (start_tun_routes env_ok (tt_open env_ok "ovpn-dco") 7 world0)
    as [_ Hok].
  destruct (Hok eq_refl) as (w1 & w2 & _ & Hrun & Hcalls).
  exists w2. split; [exact Hrun | exact Hcalls].
Defined.

(** X13.  However long it polls, [dco_create_socket] calls
    [DeviceIoControl] at most once: not at all when it stops while
    building the descriptor, and exactly once, for the new-peer request,
    on every other run. *)
Theorem connect_single_request L E fuel remoteaddr bind_local bind devname
  timeout w :
  match dco_create_socket L E fuel remoteaddr bind_local bind devname
          timeout w,
        dco_create_socket_peer L remoteaddr bind_local bind w with
  | Returned _ w', Returned _ _ | Exited w', Returned _ _ =>
      w_ioctls w' = S (w_ioctls w)
  | Returned _ w', _ | Exited w', _ => w_ioctls w' = w_ioctls w
  | OutOfFuel, _ => True
  end.
Proof.
  rewrite connect_cases.
  pose proof (peer_frame L remoteaddr bind_local bind w) as Hpf.
  destruct (dco_create_socket_peer L remoteaddr bind_local bind w)
    as [peer w1 | w1 |]; [| tauto | contradiction].
  destruct Hpf as (_ & Hi & _).
  destruct (ioctl_reply E (w_ioctls w1)) as [|err].
  - cbn [submitted w_ioctls]. now rewrite Hi.
  - destruct (err =? ERROR_IO_PENDING).
    + pose proof (wait_loop_frame E (Some (device_handle E devname)) fuel
                    (dword (50 * poll_budget timeout))
                    (submitted E peer devname w1)) as Hfr.
      destruct (dco_connect_wait_loop E fuel _ _ _) as [r w'| |];
        [|contradiction|exact I].
      destruct Hfr as (_ & Hio & _).
      cbn [submitted w_ioctls] in Hio.
      destruct (negb (r =? 0)); unfold log; world_simpl; congruence.
    + cbn [submitted log w_ioctls]. now rewrite Hi.
Qed.
